(* ===== verification/_CoqProject ===== *)
-Q . S2P
Prelude.v
PyMonad.v
PyFormat.v
Qt.v
Window.v
EventLoop.v
Dispatch.v
Invariant.v
Countdown.v
Controller.v
Audio.v
