(* ===== verification/Prelude.v ===== *)
(** * A verification development for [src/timer.py] (pyside6-timer)

    ** The program

    [src/timer.py] is a PySide6 countdown timer.  One class, [Window]
    (a [QMainWindow]), owns the whole program state as Python attributes
    and reacts to six toolkit events:
    - [edit_time.timeChanged] calls [editTimeFunc] (lines 81-85), which
      stores the configured time in [self.counter] and [self.old_count]
      and redraws the label;
    - [start_stop_btn.clicked] calls [startStop] (lines 121-129), which
      starts or stops the 1000 ms [QTimer] and locks or unlocks the editor;
    - [timer.timeout] calls [timerFunc] (lines 89-118), the countdown
      step: it rebuilds the media player ([sound], lines 132-136),
      decrements the counter, and on reaching [0] (or going below it)
      stops the timer, resets the counter to [old_count] and plays the
      alert.  When [self.counter] was never set, the decrement raises
      [AttributeError], which the [except] branch turns into an
      immediate stop with alert;
    - the window's close request calls [closeEvent] (lines 138-141):
      the close is ignored, the window hidden and the tray icon shown;
    - the tray menu's "Show" action runs [self.show] then [tray.hide]
      (lines 39-43), its "Exit" action runs [sys.exit].
    The constructor ([__init__], [initializeUI], [setUpMainWindow],
    [setLayout], [systemTray], lines 21-78) builds the widgets, lays
    them out in a central widget, builds the tray icon with its context
    menu, and wires the signals with six [connect] calls.

    ** The library, file by file

    - [Prelude] (this file): the [py_scope] notations for Python's floor
      division [//] and modulo [%%] (Rocq's [Z.div]/[Z.modulo] round
      towards minus infinity exactly as Python does), the hint databases
      [timer] and [py_run], the tactics of the development and the
      generic lemmas on [Z] ranges shared by the components, and the
      association lists that serve as object stores.
    - [PyMonad]: Python statement semantics as ExtLib's [eitherT PyExc]
      over [state S]: a statement either returns or raises, and the
      attribute writes made before a raise are kept (the state is outside
      the exception layer), which is what [try/except] in [timerFunc]
      relies on.  [getattr] raises [AttributeError] on a missing
      attribute; [try_except_AttributeError] is Python's
      [try: ... except AttributeError: ...].
    - [PyFormat]: [str] of an [int] and the ['%02d'] conversion, and the
      label text ['%02d:%02d' % (c // 60, c % 60)] as [mmss]; its shape
      on [0 <= c < 6000], its parse back, and what it prints for
      negative counters.
    - [Qt]: the PySide6 objects the program uses, with the behaviour Qt
      gives them: [QTime] (milliseconds since midnight, [-1] when invalid,
      as in [qdatetime.cpp]), [QTimeEdit] (value, range, enabled flag;
      [setMaximumTime] ignores an invalid time), [QPushButton] (checkable,
      [toggle]), [QTimer], [QSystemTrayIcon] (visibility, icon, a pointer
      to its context menu), [QAction], [QMenu] ([addAction] moves an
      action already present to the end), widget size limits
      ([QWIDGETSIZE_MAX] and the bounding of [setGeometry]) and the
      alignment flags as bits.
    - [Window]: the [Window] record (one field per attribute the code
      reads or writes, the Qt objects it allocates by object id, the
      connection table, the central widget and the window's title and
      geometry) and one monadic definition per method, written
      statement by statement in the order of the source; the initial
      state built by the constructor; the behaviour of every branch of
      every handler.
    - [EventLoop]: the Qt event dispatch: which events the toolkit can
      deliver in a state (a disabled editor takes no input, a stopped
      timer does not fire, a hidden window cannot be closed, the tray
      menu needs the tray icon), the handler each event runs, the step
      relation on [Proc] (a running process or one that has exited), and
      reachability from the initial state.
    - [Dispatch]: signal delivery as Qt performs it: [emit] runs the
      slots the connection table lists for a signal, in connection
      order, an exception other than [SystemExit] leaving a slot being
      printed; tray entries are found in the menu object the tray points
      to; input only reaches widgets of the central widget.  The handlers
      never change the wiring, and on reachable states this delivery
      ([step_qt], given whether the platform has a notification area) is
      equivalent to [EventLoop.step_fn] when it has one.
    - [Invariant]: the invariant of every reachable state, by rule
      induction on reachability: the timer runs iff the button is
      checked iff the editor is disabled; the button text matches; the
      window is visible iff the tray icon is not; [counter] and
      [old_count] are set together with [0 <= counter <= old_count <=
      3599]; the label always shows [mmss] of the counter; no exception
      other than [SystemExit] ever leaves a handler.
    - [Countdown]: the countdown as a function of the number of ticks:
      a started countdown of [c >= 1] seconds stops exactly at the
      [c]-th tick, with one alert, the counter reset to [old_count] and
      the window raised; every started countdown stops (termination
      measure [countdown_len]); the misuse and zero-duration paths; the
      start/stop and tray scenarios of the spec.
    - [Controller]: the abstract Countdown Controller of the spec
      (duration, remaining, run state; [set_duration], [toggle],
      [on_tick]), its run over a sequence of events ([spec_run]), and
      the refinement: every delivered event moves the abstraction of the
      concrete state as the abstract operation does, with the same alert
      and raise outputs, and so every concrete execution ([steps]) is a
      run of the abstract controller on the same events.
    - [Audio]: the lifetime of the alert player: [self.ding] is the only
      reference to a parentless [QMediaPlayer], so the player (and a
      sound it plays) lives until [sound()] rebinds it at the next tick.

    ** The main theorems

    - Refinement: [Controller.controller_refinement] (every execution
      is a run of the spec's controller on the same events, with one
      alert played per [Alert] output).
    - Equivalence: [Dispatch.qt_dispatch_equiv] (Qt's delivery through
      the constructor's wiring is the dispatch the other theorems use).
    - Liveness and termination: [Countdown.countdown_completes] (a
      countdown of [c >= 1] seconds alerts and resets at the [c]-th
      tick, silently before) and [Countdown.countdown_terminates]
      (every running countdown stops within [countdown_len] ticks).
    - Invariants of reachable states, by rule induction:
      [Invariant.reachable_widgets_consistent],
      [Invariant.reachable_counter_bounds] (counter in [[0, 3599]],
      label of five characters), [Invariant.reachable_label_roundtrip]
      (the label parses back to the counter),
      [Dispatch.reachable_signal_slots] (each signal reaches its
      constructor-connected slots once, the tray entries stay bound).
    - Error paths: [Invariant.no_attribute_error_escapes],
      [Countdown.start_without_duration] (start with no duration: one
      tick, then stop with alert), [Countdown.zero_duration_stays_in_tray]
      (the [counter < 0] branch is reached by a zero duration and does
      not raise the window).
    - The tray: [Invariant.close_keeps_countdown],
      [Invariant.exit_only_from_tray], [Invariant.tray_roundtrip]
      (close to tray then "Show" restores exactly the same state), and
      [Dispatch.closed_without_tray_stuck] (on a desktop without a
      notification area, which the program never checks for, closing
      the window while no countdown runs leaves a running process that
      can receive no event any more).
    - Per-handler behaviour: [Countdown.edit_sets_duration],
      [Countdown.start_then_stop], [Window.window_init_state], [Window.time_in_seconds_minsec],
      [Window.sound_spec].
    - The alert player: [Audio.restart_cuts_alert] (restarting while
      the alert plays cuts it at the first tick, whose [sound()]
      deletes the playing player).
    - Construction: [Dispatch.window_init_wiring] (connections, shared
      tray menu, layout) and [Window.window_init_presentation] (title,
      geometry, label font and alignment bits).
    Each theorem with hypotheses is followed by a [_witness] that applies
    it to a concrete state reached from [window_init] by a run of
    events.  The branch lemmas [Window.run_*] give the state after each
    path of each handler and carry the other proofs.

    ** Bounds and choices

    Python integers are unbounded, so counters are [Z] with no wrap
    around.  The editor only produces times of hour 0 and msec 0 whose
    minute and second are below 60 (the [QTime(0, 61, 61, 0)] maximum of
    line 70 is an invalid time, which [setMaximumTime] ignores), so
    [old_count <= 3599]; every bound used below follows from this.  No
    fuel is needed: every handler is straight-line code, and the
    countdown loop is [Nat.iter] over the number of ticks.

    ** Not modelled

    Painting and the platform's window manager (the model keeps the
    geometry, title, font and alignment the code sets, not pixels);
    reading [sources/icon.png] and [sources/ding.wav] (kept by file
    name); the audio playback itself (a [play] is recorded in the
    state's [audio_log] and the player's playing state; the media
    backend is not modelled, so the end of the clip is not an event and
    "playing" means started and not yet deleted); real time
    (a tick is one [timeout] event); the exit status [sys.exit] is
    called with (the process ends in [Exited]); the imports of lines
    1-16. *)

From Stdlib Require Import ZArith Lia List.
Import ListNotations.

Declare Scope py_scope.
Delimit Scope py_scope with py.

(** Python's [//] and [%] on [int]: floor division and the matching
    remainder, which is what [Z.div] and [Z.modulo] compute. *)
Infix "//" := Z.div (at level 40, left associativity) : py_scope.
Infix "%%" := Z.modulo (at level 40, left associativity) : py_scope.

Create HintDb timer.
Create Rewrite HintDb py_run.

(** Case analysis on the boolean tests of the code, keeping the fact. *)
Ltac z_cases :=
  repeat match goal with
  | |- context [Z.eqb ?a ?b] => destruct (Z.eqb_spec a b)
  | |- context [Z.ltb ?a ?b] => destruct (Z.ltb_spec a b)
  | |- context [Z.leb ?a ?b] => destruct (Z.leb_spec a b)
  end.

Ltac inv H := inversion H; subst; clear H.

(** A decidable property of the integers below [n], checked by running
    [P] on each of them. *)
Fixpoint Z_all_below (P : Z -> bool) (n : nat) : bool :=
  match n with
  | O => true
  | S k => P (Z.of_nat k) && Z_all_below P k
  end.

(** Object stores: the Qt objects a program allocates, by object id, in
    allocation order. *)
Fixpoint assoc_find {A} (k : nat) (l : list (nat * A)) : option A :=
  match l with
  | [] => None
  | (k', a) :: l' => if Nat.eqb k k' then Some a else assoc_find k l'
  end.

Fixpoint assoc_update {A} (k : nat) (f : A -> A) (l : list (nat * A)) : list (nat * A) :=
  match l with
  | [] => []
  | (k', a) :: l' => if Nat.eqb k k' then (k', f a) :: l' else (k', a) :: assoc_update k f l'
  end.

Lemma Z_all_below_spec (P : Z -> bool) (n : nat) :
  Z_all_below P n = true -> forall z, (0 <= z < Z.of_nat n)%Z -> P z = true.
Proof.
  induction n as [|k IH]; simpl; intros H z Hz; [lia|].
  apply andb_prop in H as [Hk Hrest].
  destruct (Z.eq_dec z (Z.of_nat k)) as [->|Hne]; [exact Hk|].
  apply IH; [exact Hrest | lia].
Qed.

(** The quotient and remainder by 60 of a counter in range. *)
Lemma div_mod_60_bounds (c : Z) :
  (0 <= c)%Z -> (0 <= c / 60 /\ 0 <= c mod 60 < 60 /\ c = 60 * (c / 60) + c mod 60)%Z.
Proof.
  intros Hc. pose proof (Z.mod_pos_bound c 60 eq_refl).
  pose proof (Z.div_mod c 60 ltac:(discriminate)). repeat split; lia.
Qed.

Lemma minsec_div (m s : Z) :
  (0 <= s < 60 -> (m * 60 + s) / 60 = m /\ (m * 60 + s) mod 60 = s)%Z.
Proof.
  intros Hs. split; [symmetry; apply Z.div_unique with s | symmetry; apply Z.mod_unique with m]; lia.
Qed.

(** The two decimal digits of a number below 100. *)
Lemma two_digits (n : Z) :
  (0 <= n < 100)%Z -> (0 <= n / 10 < 10 /\ 0 <= n mod 10 < 10 /\ n = 10 * (n / 10) + n mod 10)%Z.
Proof.
  intros Hn. pose proof (Z.mod_pos_bound n 10 eq_refl).
  pose proof (Z.div_mod n 10 ltac:(discriminate)).
  assert (n / 10 < 10)%Z by (apply Z.div_lt_upper_bound; lia).
  assert (0 <= n / 10)%Z by (apply Z.div_pos; lia). lia.
Qed.

(** A counter below 6000 has fewer than 100 minutes. *)
Lemma minutes_lt_100 (c : Z) : (0 <= c < 6000)%Z -> (0 <= c / 60 < 100)%Z.
Proof.
  intros Hc. split; [apply Z.div_pos; lia | apply Z.div_lt_upper_bound; lia].
Qed.

#[export] Hint Resolve div_mod_60_bounds two_digits minutes_lt_100 : timer.
