(* ===== verification/PyMonad.v ===== *)
(** Python statement semantics for the handlers of [src/timer.py]: a
    computation over a state [S] that returns a value or raises a Python
    exception, built from ExtLib's [eitherT] over [state].  The state is
    threaded outside the exception layer, so the attribute assignments a
    statement made before raising survive the raise, as in Python. *)

From Stdlib Require Import String ZArith.
From ExtLib Require Export Structures.Monad Structures.MonadState Structures.MonadExc.
From ExtLib Require Import Data.Monads.StateMonad Data.Monads.EitherMonad.
From S2P Require Import Prelude.

Export MonadNotation.
Open Scope monad_scope.

(** The exceptions the handlers can raise: reading a missing attribute,
    and [sys.exit]. *)
Inductive PyExc :=
| AttributeError (attr : string)
| SystemExit.

Definition py (S A : Type) : Type := eitherT PyExc (state S) A.

#[export] Instance Monad_py S : Monad (py S) := Monad_eitherT _ (Monad_state S).
#[export] Instance MonadState_py S : MonadState S (py S) :=
  MonadState_eitherT _ (Monad_state S) (MonadState_state S).
#[export] Instance MonadExc_py S : MonadExc PyExc (py S) :=
  Exception_eitherT _ (Monad_state S).

(** Running a statement from a state: its outcome and the final state. *)
Definition run {S A} (c : py S A) (s : S) : (PyExc + A) * S :=
  runState (unEitherT c) s.

(** [self.f = ...]: an attribute write is an update of the state. *)
Definition update {S} (f : S -> S) : py S unit :=
  s <- get ;; put (f s).

(** [self.attr]: reading an attribute that was never assigned raises
    [AttributeError]. *)
Definition getattr {S A} (sel : S -> option A) (name : string) : py S A :=
  s <- get ;;
  match sel s with
  | Some a => ret a
  | None => raise (AttributeError name)
  end.

(** [try: body except AttributeError: handler]: other exceptions pass
    through unchanged. *)
Definition try_except_AttributeError {S A} (body handler : py S A) : py S A :=
  catch body (fun e => match e with
                       | AttributeError _ => handler
                       | _ => raise e
                       end).

Section Run.
Context {S : Type}.

Lemma run_ret {A} (a : A) (s : S) : run (ret a) s = (inr a, s).
Proof. reflexivity. Qed.

Lemma run_bind {A B} (c : py S A) (f : A -> py S B) (s : S) :
  run (bind c f) s =
  match run c s with
  | (inl e, s') => (inl e, s')
  | (inr a, s') => run (f a) s'
  end.
Proof. unfold run; cbn. destruct (runState (unEitherT c) s) as [[e|a] s']; reflexivity. Qed.

Lemma run_get (s : S) : run get s = (inr s, s).
Proof. reflexivity. Qed.

Lemma run_update (f : S -> S) (s : S) : run (update f) s = (inr tt, f s).
Proof. reflexivity. Qed.

Lemma run_raise {A} (e : PyExc) (s : S) : run (raise (T := A) e) s = (inl e, s).
Proof. reflexivity. Qed.

Lemma run_getattr {A} (sel : S -> option A) name s :
  run (getattr sel name) s =
  match sel s with
  | Some a => (inr a, s)
  | None => (inl (AttributeError name), s)
  end.
Proof. unfold getattr, run; cbn. destruct (sel s); reflexivity. Qed.

Lemma run_getattr_Some {A} (sel : S -> option A) name s a :
  sel s = Some a -> run (getattr sel name) s = (inr a, s).
Proof. intros H. unfold getattr, run; cbn. rewrite H. reflexivity. Qed.

Lemma run_getattr_None {A} (sel : S -> option A) name s :
  sel s = None -> run (getattr sel name) s = (inl (AttributeError name), s).
Proof. intros H. unfold getattr, run; cbn. rewrite H. reflexivity. Qed.

(** [catch]: the handler sees the exception and the state at the raise. *)
Lemma run_catch {A} (body : py S A) (h : PyExc -> py S A) s :
  run (catch body h) s =
  match run body s with
  | (inl e, s') => run (h e) s'
  | r => r
  end.
Proof. unfold run; cbn. destruct (runState (unEitherT body) s) as [[e|v] s']; reflexivity. Qed.

(** The handler runs from the state the body had reached when it raised. *)
Lemma run_try_except {A} (body handler : py S A) s :
  run (try_except_AttributeError body handler) s =
  match run body s with
  | (inl (AttributeError _), s') => run handler s'
  | r => r
  end.
Proof.
  unfold try_except_AttributeError, run; cbn.
  destruct (runState (unEitherT body) s) as [[[a|]|v] s']; reflexivity.
Qed.

End Run.

#[export] Hint Rewrite @run_ret @run_bind @run_get @run_update @run_raise @run_getattr @run_try_except @run_catch : py_run.

(** Proofs execute statements with the rewrite rules above; [run] itself
    is never unfolded by [simpl] or [cbn] (the kernel would have to
    replay the whole unfolding). *)
Arguments run : simpl never.
