(* ===== verification/PyFormat.v ===== *)
(** Python's text conversions used by the label of [src/timer.py]:
    [str] of an [int], the ['%0<w>d'] conversion of the [%] operator,
    and the label text ['%02d:%02d' % (c // 60, c % 60)] of lines 85,
    93, 100 and 108, with its parse back. *)

From Stdlib Require Import String Ascii ZArith Lia DecimalString.
From S2P Require Import Prelude.

Open Scope string_scope.
Open Scope Z_scope.
Open Scope py_scope.

(** [str(n)] for [n >= 0]: the decimal digits, no leading zero. *)
Definition py_str_nonneg (n : Z) : string :=
  NilEmpty.string_of_uint (N.to_uint (Z.to_N n)).

Fixpoint zeros (k : nat) : string :=
  match k with
  | O => EmptyString
  | S k' => String "0" (zeros k')
  end.

(** Zero padding on the left up to [w] characters. *)
Definition zfill (w : nat) (s : string) : string :=
  zeros (w - String.length s) ++ s.

(** ['%0<w>d' % n]: the sign first, then the digits zero-padded so that
    sign and digits together take [w] characters ([printf] semantics of
    the ['0'] flag, which Python's [%] follows). *)
Definition percent_0d (w : nat) (n : Z) : string :=
  if n <? 0 then String "-" (zfill (w - 1) (py_str_nonneg (- n)))
  else zfill w (py_str_nonneg n).

(** ['%02d:%02d' % (c // 60, c % 60)]. *)
Definition mmss (c : Z) : string :=
  percent_0d 2 (c // 60) ++ ":" ++ percent_0d 2 (c %% 60).

(** Proofs about the program keep the label text folded. *)
Arguments mmss : simpl never.

Definition digit_char (d : Z) : ascii := ascii_of_nat (48 + Z.to_nat d).

Definition char_digit (a : ascii) : option Z :=
  let n := Z.of_nat (nat_of_ascii a) in
  if ((48 <=? n) && (n <=? 57))%bool then Some (n - 48) else None.

(** Reading the label back: two digits, a colon, two digits. *)
Definition parse_mmss (s : string) : option Z :=
  match s with
  | String a (String b (String c (String d (String e EmptyString)))) =>
      if Ascii.eqb c ":" then
        match char_digit a, char_digit b, char_digit d, char_digit e with
        | Some a', Some b', Some d', Some e' => Some ((10 * a' + b') * 60 + 10 * d' + e')
        | _, _, _, _ => None
        end
      else None
  | _ => None
  end.

Lemma percent_0d_2_small_check :
  Z_all_below (fun n => String.eqb (percent_0d 2 n)
                          (String (digit_char (n / 10)) (String (digit_char (n mod 10)) EmptyString))) 100
  = true.
Proof. vm_compute. reflexivity. Qed.

(** ['%02d' % n] for [0 <= n < 100] is the two digits of [n]. *)
Lemma percent_0d_2_small (n : Z) :
  0 <= n < 100 ->
  percent_0d 2 n = String (digit_char (n / 10)) (String (digit_char (n mod 10)) EmptyString).
Proof.
  intros Hn. apply String.eqb_eq.
  exact (Z_all_below_spec _ _ percent_0d_2_small_check n ltac:(simpl; lia)).
Qed.

Lemma char_digit_digit_char (d : Z) : 0 <= d < 10 -> char_digit (digit_char d) = Some d.
Proof.
  intros Hd.
  assert (d = 0 \/ d = 1 \/ d = 2 \/ d = 3 \/ d = 4 \/ d = 5 \/ d = 6 \/ d = 7 \/ d = 8 \/ d = 9)
    as Hcases by lia.
  repeat destruct Hcases as [->|Hcases]; try subst d; reflexivity.
Qed.

#[export] Hint Rewrite percent_0d_2_small char_digit_digit_char using lia : py_run.

(** The label of a counter [0 <= c < 6000] is five characters, ["MM:SS"]. *)
Lemma mmss_digits (c : Z) :
  0 <= c < 6000 ->
  mmss c = String (digit_char (c / 60 / 10)) (String (digit_char (c / 60 mod 10))
           (String ":" (String (digit_char (c mod 60 / 10))
           (String (digit_char (c mod 60 mod 10)) EmptyString)))).
Proof.
  intros Hc. destruct (div_mod_60_bounds c) as (H1 & H2 & H3); [lia|].
  unfold mmss. rewrite !percent_0d_2_small by lia. reflexivity.
Qed.

(** The label of a non-negative counter below 6000 is five characters. *)
Lemma mmss_length (c : Z) : 0 <= c < 6000 -> String.length (mmss c) = 5%nat.
Proof. intros Hc. rewrite mmss_digits by exact Hc. reflexivity. Qed.

(** Reading the label back gives the counter it was drawn from. *)
Theorem mmss_parse (c : Z) : 0 <= c < 6000 -> parse_mmss (mmss c) = Some c.
Proof.
  intros Hc. destruct (div_mod_60_bounds c) as (_ & H2 & H3); [lia|].
  destruct (two_digits (c / 60)) as (M1 & M2 & M3); [now apply minutes_lt_100|].
  destruct (two_digits (c mod 60)) as (S1 & S2 & S3); [lia|].
  rewrite mmss_digits by exact Hc. cbn [parse_mmss Ascii.eqb Bool.eqb].
  rewrite !char_digit_digit_char by assumption.
  f_equal. lia.
Qed.

(** The label of [m * 60 + s] is the zero-padded minutes and seconds. *)
Lemma mmss_minsec (m s : Z) :
  0 <= s < 60 -> mmss (m * 60 + s) = percent_0d 2 m ++ ":" ++ percent_0d 2 s.
Proof. intros Hs. unfold mmss. destruct (minsec_div m s Hs) as [-> ->]. reflexivity. Qed.

(** What the code writes for a counter of [-1] before overwriting it:
    [-1 // 60 = -1] and [-1 % 60 = 59]. *)
Example mmss_minus_one : mmss (-1) = "-1:59"%string.
Proof. reflexivity. Qed.

Example mmss_zero : mmss 0 = "00:00"%string.
Proof. reflexivity. Qed.
