(* ===== verification/Qt.v ===== *)
(** The PySide6 objects [src/timer.py] uses, with the behaviour Qt 6
    gives them, restricted to the state the program reads or writes:
    [QTime] as Qt stores it (milliseconds since midnight, [-1] for the
    null time), [QTimeEdit], [QPushButton], [QTimer],
    [QSystemTrayIcon], [QAction], [QMenu], widget size limits and
    alignment flags.  These are the collaborators of the spec's
    section 6; the program only calls them. *)

From Stdlib Require Import String ZArith Bool Lia List.
From Stdlib Require Import Classes.EquivDec.
From S2P Require Import Prelude.

Open Scope Z_scope.

(** ** QTime *)

Record QTime := mkQTime { mds : Z }.

Definition NullTime : Z := -1.
Definition MSECS_PER_DAY : Z := 86400000.

(** [QTime::isValid(h, m, s, ms)]. *)
Definition QTime_isValid_hms (h m s ms : Z) : bool :=
  (0 <=? h) && (h <? 24) && (0 <=? m) && (m <? 60) &&
  (0 <=? s) && (s <? 60) && (0 <=? ms) && (ms <? 1000).

(** [QTime(h, m, s, ms)]: an out-of-range argument gives the null time. *)
Definition QTime_new (h m s ms : Z) : QTime :=
  if QTime_isValid_hms h m s ms then mkQTime ((h * 3600 + m * 60 + s) * 1000 + ms)
  else mkQTime NullTime.

Definition QTime_isValid (t : QTime) : bool := (NullTime <? mds t) && (mds t <? MSECS_PER_DAY).

Definition QTime_ds (t : QTime) : Z := if mds t =? NullTime then 0 else mds t.

Definition QTime_hour (t : QTime) : Z :=
  if QTime_isValid t then QTime_ds t / 3600000 else -1.
Definition QTime_minute (t : QTime) : Z :=
  if QTime_isValid t then (QTime_ds t mod 3600000) / 60000 else -1.
Definition QTime_second (t : QTime) : Z :=
  if QTime_isValid t then (QTime_ds t / 1000) mod 60 else -1.
Definition QTime_msec (t : QTime) : Z :=
  if QTime_isValid t then QTime_ds t mod 1000 else -1.

(** [operator==] and [operator<=] compare the stored milliseconds. *)
Definition QTime_eqb (a b : QTime) : bool := mds a =? mds b.
Definition QTime_leb (a b : QTime) : bool := mds a <=? mds b.

#[export] Instance QTime_EqDec : EqDec QTime eq.
Proof. intros [a] [b]. destruct (Z.eq_dec a b) as [->|Hne]; [left; reflexivity | right; congruence]. Defined.

(** ** QTimeEdit *)

Record QTimeEdit := mkQTimeEdit {
  te_time : QTime;
  te_min : QTime;
  te_max : QTime;
  te_enabled : bool;
  te_format : string }.

(** [QTimeEdit()]: value and minimum 00:00:00.000, maximum
    23:59:59.999, enabled, the locale's format. *)
Definition QTimeEdit_new : QTimeEdit :=
  mkQTimeEdit (QTime_new 0 0 0 0) (QTime_new 0 0 0 0) (QTime_new 23 59 59 999) true "HH:mm:ss".

(** [setMaximumTime(max)] does nothing when [max] is not a valid time;
    otherwise it sets the maximum, lowers the minimum to it when needed
    and clamps the value. *)
Definition QTimeEdit_setMaximumTime (mx : QTime) (e : QTimeEdit) : QTimeEdit :=
  if QTime_isValid mx then
    mkQTimeEdit (if QTime_leb (te_time e) mx then te_time e else mx)
                (if QTime_leb (te_min e) mx then te_min e else mx)
                mx (te_enabled e) (te_format e)
  else e.

Definition QTimeEdit_setDisplayFormat (f : string) (e : QTimeEdit) : QTimeEdit :=
  mkQTimeEdit (te_time e) (te_min e) (te_max e) (te_enabled e) f.

(** [setDisabled(b)] is [setEnabled(not b)]. *)
Definition QTimeEdit_setDisabled (b : bool) (e : QTimeEdit) : QTimeEdit :=
  mkQTimeEdit (te_time e) (te_min e) (te_max e) (negb b) (te_format e).

Definition QTimeEdit_setTime (t : QTime) (e : QTimeEdit) : QTimeEdit :=
  mkQTimeEdit t (te_min e) (te_max e) (te_enabled e) (te_format e).

(** The values a user can type into an enabled editor whose display
    format is ['mm:ss']: a valid time in the range, whose hour and
    milliseconds are those of the current value (the format has no
    section for them), different from the current value ([timeChanged]
    is only emitted on a change). *)
Definition QTimeEdit_accepts (e : QTimeEdit) (t : QTime) : bool :=
  te_enabled e && QTime_isValid t &&
  (QTime_hour t =? QTime_hour (te_time e)) && (QTime_msec t =? QTime_msec (te_time e)) &&
  QTime_leb (te_min e) t && QTime_leb t (te_max e) && negb (QTime_eqb t (te_time e)).

(** ** QPushButton *)

Record QPushButton := mkQPushButton {
  btn_text : string;
  btn_checkable : bool;
  btn_checked : bool }.

Definition QPushButton_new (text : string) : QPushButton := mkQPushButton text false false.

Definition QPushButton_setCheckable (c : bool) (b : QPushButton) : QPushButton :=
  mkQPushButton (btn_text b) c (btn_checked b).

Definition QPushButton_setText (s : string) (b : QPushButton) : QPushButton :=
  mkQPushButton s (btn_checkable b) (btn_checked b).

(** [toggle()] flips the checked state of a checkable button and emits
    [toggled], not [clicked]. *)
Definition QPushButton_toggle (b : QPushButton) : QPushButton :=
  if btn_checkable b then mkQPushButton (btn_text b) true (negb (btn_checked b)) else b.

(** ** QTimer *)

Record QTimer := mkQTimer { tm_active : bool; tm_interval : Z }.

Definition QTimer_new : QTimer := mkQTimer false 0.
Definition QTimer_start (msec : Z) (t : QTimer) : QTimer := mkQTimer true msec.
Definition QTimer_stop (t : QTimer) : QTimer := mkQTimer false (tm_interval t).

(** ** QSystemTrayIcon *)

(** The icon is kept by its file name ([QIcon] is a value type, copied by
    [setIcon]); the context menu by the object id of the [QMenu] it
    points to ([setContextMenu] stores a pointer, not a copy). *)
Record QSystemTrayIcon := mkQSystemTrayIcon {
  tray_visible : bool;
  tray_icon_file : option string;
  tray_context_menu : option nat }.

Definition QSystemTrayIcon_new : QSystemTrayIcon := mkQSystemTrayIcon false None None.

Definition QSystemTrayIcon_setIcon (f : string) (t : QSystemTrayIcon) : QSystemTrayIcon :=
  mkQSystemTrayIcon (tray_visible t) (Some f) (tray_context_menu t).

Definition QSystemTrayIcon_setContextMenu (m : nat) (t : QSystemTrayIcon) : QSystemTrayIcon :=
  mkQSystemTrayIcon (tray_visible t) (tray_icon_file t) (Some m).

(** [setVisible(b)]; [hide()] is [setVisible(false)].  Qt only warns when
    an icon-less tray icon is shown. *)
Definition QSystemTrayIcon_setVisible (b : bool) (t : QSystemTrayIcon) : QSystemTrayIcon :=
  mkQSystemTrayIcon b (tray_icon_file t) (tray_context_menu t).

(** ** QAction and QMenu *)

Record QAction := mkQAction { act_text : string }.

(** A menu lists its actions by object id, in the order they were added. *)
Record QMenu := mkQMenu { menu_actions : list nat }.

Definition QMenu_new : QMenu := mkQMenu nil.

(** [QWidget::addAction(a)]: an action already in the list is moved to
    the end ([insertAction] removes it first). *)
Definition QMenu_addAction (a : nat) (m : QMenu) : QMenu :=
  mkQMenu (List.filter (fun x => negb (Nat.eqb x a)) (menu_actions m) ++ (a :: nil)).

(** ** QWidget sizes and QLabel alignment *)

(** [QWIDGETSIZE_MAX], the default maximum width and height: [(1 << 24) - 1]. *)
Definition QWIDGETSIZE_MAX : Z := Z.shiftl 1 24 - 1.

(** [setGeometry_sys] bounds a requested size by the maximum, then the
    minimum size. *)
Definition size_bounded (sz mn mx : Z * Z) : Z * Z :=
  (Z.max (Z.min (fst sz) (fst mx)) (fst mn), Z.max (Z.min (snd sz) (snd mx)) (snd mn)).

(** [Qt::AlignmentFlag] bits. *)
Definition Qt_AlignLeft : Z := 1.
Definition Qt_AlignHCenter : Z := 4.
Definition Qt_AlignVCenter : Z := 128.
Definition Qt_AlignCenter : Z := Z.lor Qt_AlignVCenter Qt_AlignHCenter.

(** ** Facts about these objects used by the program's proofs *)

(** The maximum [QTime(0, 61, 61, 0)] of line 70 is the null time. *)
Lemma QTime_0_61_61_invalid : QTime_isValid (QTime_new 0 61 61 0) = false.
Proof. reflexivity. Qed.

(** Minute and second of a valid time are below 60. *)
Lemma QTime_minute_second_range (t : QTime) :
  QTime_isValid t = true ->
  0 <= QTime_minute t < 60 /\ 0 <= QTime_second t < 60.
Proof.
  intros Hv. unfold QTime_minute, QTime_second. rewrite Hv.
  unfold QTime_isValid, QTime_ds, NullTime, MSECS_PER_DAY in *.
  apply andb_prop in Hv as [H1 H2].
  apply Z.ltb_lt in H1, H2. destruct (Z.eqb_spec (mds t) (-1)); [lia|].
  split; split.
  - apply Z.div_pos; [apply Z.mod_pos_bound|]; lia.
  - apply Z.div_lt_upper_bound; [lia|]. pose proof (Z.mod_pos_bound (mds t) 3600000). lia.
  - apply Z.mod_pos_bound; lia.
  - apply Z.mod_pos_bound; lia.
Qed.
