(* ===== verification/Window.v ===== *)
(** The class [Window] of [src/timer.py]: its attributes as a record and
    each method as a statement of the [py] monad, written in the order
    of the source.  Attributes that the code may read before assigning
    ([time], [counter], [old_count], [ding], [audioOutput]) are options:
    reading an absent one raises [AttributeError].  Qt objects that are
    shared by reference (the tray menu, its actions, the audio output)
    are kept by object id in stores; the [connect] calls append to a
    connection table that [Dispatch] reads. *)

From Stdlib Require Import String ZArith Bool List Lia.
From S2P Require Import Prelude PyMonad PyFormat Qt.
Import ListNotations.

Open Scope string_scope.
Open Scope Z_scope.
Open Scope py_scope.
Open Scope monad_scope.

(** [QMediaPlayer]: its source file, the [QAudioOutput] object it sends
    to, and whether it is playing.  A player has no Qt parent here, so
    it lives as long as a Python reference to it does: when [sound()]
    rebinds [self.ding], the previous player is deleted, and a sound it
    was playing stops. *)
Record QMediaPlayer := mkQMediaPlayer {
  mp_source : option string;
  mp_output : option nat;
  mp_playing : bool }.

Definition QMediaPlayer_new : QMediaPlayer := mkQMediaPlayer None None false.
Definition QMediaPlayer_setAudioOutput (o : option nat) (p : QMediaPlayer) : QMediaPlayer :=
  mkQMediaPlayer (mp_source p) o (mp_playing p).
Definition QMediaPlayer_setSource (src : string) (p : QMediaPlayer) : QMediaPlayer :=
  mkQMediaPlayer (Some src) (mp_output p) (mp_playing p).

(** [play()]: with a source, playback starts; without one, nothing. *)
Definition QMediaPlayer_play (p : QMediaPlayer) : QMediaPlayer :=
  match mp_source p with
  | Some _ => mkQMediaPlayer (mp_source p) (mp_output p) true
  | None => p
  end.

(** The three widgets [setLayout] places, named by the attribute that
    holds them (none of these attributes is reassigned). *)
Inductive Widget := timer_lbl_w | edit_time_w | start_stop_btn_w.

(** [QVBoxLayout]: the widgets added, top to bottom; [QWidget]: a plain
    widget and its layout. *)
Definition QVBoxLayout := list Widget.
Record QWidget := mkQWidget { wg_layout : option QVBoxLayout }.

(** A signal of a sender object, and the Python callables connected to
    signals (bound methods of [self] and of [self.tray], and [sys.exit]). *)
Inductive Sender :=
| timeChanged              (** [self.edit_time.timeChanged] *)
| timeout                  (** [self.timer.timeout] *)
| clicked                  (** [self.start_stop_btn.clicked] *)
| triggered (a : nat).     (** [triggered] of the [QAction] with that object id *)

Inductive Slot :=
| Slot_editTimeFunc | Slot_timerFunc | Slot_startStop | Slot_show | Slot_tray_hide | Slot_sys_exit.

Record Window := mkWindow {
  visible : bool;                    (** the [QMainWindow] is shown *)
  timer : QTimer;                    (** [self.timer] *)
  timer_lbl : string;                (** text of [self.timer_lbl] *)
  edit_time : QTimeEdit;             (** [self.edit_time] *)
  start_stop_btn : QPushButton;      (** [self.start_stop_btn] *)
  tray : QSystemTrayIcon;            (** [self.tray] *)
  time : option QTime;               (** [self.time] *)
  counter : option Z;                (** [self.counter] *)
  old_count : option Z;              (** [self.old_count] *)
  ding : option QMediaPlayer;        (** [self.ding] *)
  audioOutput : option nat;          (** [self.audioOutput], by object id *)
  objects : nat;                     (** objects allocated so far: the next object id *)
  audio_log : list string;           (** sources played by [ding.play()], oldest first *)
  tray_icon : option string;         (** [self.tray_icon], the [QIcon] by its file *)
  tray_menu : option nat;            (** [self.tray_menu], by object id *)
  show_action : option nat;          (** [self.show_action], by object id *)
  quit_action : option nat;          (** [self.quit_action], by object id *)
  actions : list (nat * QAction);    (** the [QAction] objects, by id *)
  menus : list (nat * QMenu);        (** the [QMenu] objects, by id *)
  central : option QWidget;          (** the main window's central widget *)
  conns : list (Sender * Slot);      (** the signal connections, in connection order *)
  title : string;                    (** [windowTitle()] *)
  geometry : Z * Z * Z * Z;          (** [geometry()]: x, y, width, height *)
  min_size : Z * Z;                  (** [minimumSize()] *)
  max_size : Z * Z;                  (** [maximumSize()] *)
  lbl_font : option (string * Z);    (** font of [self.timer_lbl]: family and point size *)
  lbl_alignment : Z }.               (** alignment flags of [self.timer_lbl] *)

(** ** Attribute writes *)

Definition set_visible x w :=
  mkWindow x (timer w) (timer_lbl w) (edit_time w) (start_stop_btn w) (tray w) (time w) (counter w)
    (old_count w) (ding w) (audioOutput w) (objects w) (audio_log w) (tray_icon w) (tray_menu w)
    (show_action w) (quit_action w) (actions w) (menus w) (central w) (conns w) (title w)
    (geometry w) (min_size w) (max_size w) (lbl_font w) (lbl_alignment w).
Definition set_timer x w :=
  mkWindow (visible w) x (timer_lbl w) (edit_time w) (start_stop_btn w) (tray w) (time w)
    (counter w) (old_count w) (ding w) (audioOutput w) (objects w) (audio_log w) (tray_icon w)
    (tray_menu w) (show_action w) (quit_action w) (actions w) (menus w) (central w) (conns w)
    (title w) (geometry w) (min_size w) (max_size w) (lbl_font w) (lbl_alignment w).
Definition set_timer_lbl x w :=
  mkWindow (visible w) (timer w) x (edit_time w) (start_stop_btn w) (tray w) (time w) (counter w)
    (old_count w) (ding w) (audioOutput w) (objects w) (audio_log w) (tray_icon w) (tray_menu w)
    (show_action w) (quit_action w) (actions w) (menus w) (central w) (conns w) (title w)
    (geometry w) (min_size w) (max_size w) (lbl_font w) (lbl_alignment w).
Definition set_edit_time x w :=
  mkWindow (visible w) (timer w) (timer_lbl w) x (start_stop_btn w) (tray w) (time w) (counter w)
    (old_count w) (ding w) (audioOutput w) (objects w) (audio_log w) (tray_icon w) (tray_menu w)
    (show_action w) (quit_action w) (actions w) (menus w) (central w) (conns w) (title w)
    (geometry w) (min_size w) (max_size w) (lbl_font w) (lbl_alignment w).
Definition set_start_stop_btn x w :=
  mkWindow (visible w) (timer w) (timer_lbl w) (edit_time w) x (tray w) (time w) (counter w)
    (old_count w) (ding w) (audioOutput w) (objects w) (audio_log w) (tray_icon w) (tray_menu w)
    (show_action w) (quit_action w) (actions w) (menus w) (central w) (conns w) (title w)
    (geometry w) (min_size w) (max_size w) (lbl_font w) (lbl_alignment w).
Definition set_tray x w :=
  mkWindow (visible w) (timer w) (timer_lbl w) (edit_time w) (start_stop_btn w) x (time w)
    (counter w) (old_count w) (ding w) (audioOutput w) (objects w) (audio_log w) (tray_icon w)
    (tray_menu w) (show_action w) (quit_action w) (actions w) (menus w) (central w) (conns w)
    (title w) (geometry w) (min_size w) (max_size w) (lbl_font w) (lbl_alignment w).
Definition set_time x w :=
  mkWindow (visible w) (timer w) (timer_lbl w) (edit_time w) (start_stop_btn w) (tray w) x
    (counter w) (old_count w) (ding w) (audioOutput w) (objects w) (audio_log w) (tray_icon w)
    (tray_menu w) (show_action w) (quit_action w) (actions w) (menus w) (central w) (conns w)
    (title w) (geometry w) (min_size w) (max_size w) (lbl_font w) (lbl_alignment w).
Definition set_counter x w :=
  mkWindow (visible w) (timer w) (timer_lbl w) (edit_time w) (start_stop_btn w) (tray w) (time w) x
    (old_count w) (ding w) (audioOutput w) (objects w) (audio_log w) (tray_icon w) (tray_menu w)
    (show_action w) (quit_action w) (actions w) (menus w) (central w) (conns w) (title w)
    (geometry w) (min_size w) (max_size w) (lbl_font w) (lbl_alignment w).
Definition set_old_count x w :=
  mkWindow (visible w) (timer w) (timer_lbl w) (edit_time w) (start_stop_btn w) (tray w) (time w)
    (counter w) x (ding w) (audioOutput w) (objects w) (audio_log w) (tray_icon w) (tray_menu w)
    (show_action w) (quit_action w) (actions w) (menus w) (central w) (conns w) (title w)
    (geometry w) (min_size w) (max_size w) (lbl_font w) (lbl_alignment w).
Definition set_ding x w :=
  mkWindow (visible w) (timer w) (timer_lbl w) (edit_time w) (start_stop_btn w) (tray w) (time w)
    (counter w) (old_count w) x (audioOutput w) (objects w) (audio_log w) (tray_icon w)
    (tray_menu w) (show_action w) (quit_action w) (actions w) (menus w) (central w) (conns w)
    (title w) (geometry w) (min_size w) (max_size w) (lbl_font w) (lbl_alignment w).
Definition set_audioOutput x w :=
  mkWindow (visible w) (timer w) (timer_lbl w) (edit_time w) (start_stop_btn w) (tray w) (time w)
    (counter w) (old_count w) (ding w) x (objects w) (audio_log w) (tray_icon w) (tray_menu w)
    (show_action w) (quit_action w) (actions w) (menus w) (central w) (conns w) (title w)
    (geometry w) (min_size w) (max_size w) (lbl_font w) (lbl_alignment w).
Definition set_objects x w :=
  mkWindow (visible w) (timer w) (timer_lbl w) (edit_time w) (start_stop_btn w) (tray w) (time w)
    (counter w) (old_count w) (ding w) (audioOutput w) x (audio_log w) (tray_icon w) (tray_menu w)
    (show_action w) (quit_action w) (actions w) (menus w) (central w) (conns w) (title w)
    (geometry w) (min_size w) (max_size w) (lbl_font w) (lbl_alignment w).
Definition set_audio_log x w :=
  mkWindow (visible w) (timer w) (timer_lbl w) (edit_time w) (start_stop_btn w) (tray w) (time w)
    (counter w) (old_count w) (ding w) (audioOutput w) (objects w) x (tray_icon w) (tray_menu w)
    (show_action w) (quit_action w) (actions w) (menus w) (central w) (conns w) (title w)
    (geometry w) (min_size w) (max_size w) (lbl_font w) (lbl_alignment w).
Definition set_tray_icon x w :=
  mkWindow (visible w) (timer w) (timer_lbl w) (edit_time w) (start_stop_btn w) (tray w) (time w)
    (counter w) (old_count w) (ding w) (audioOutput w) (objects w) (audio_log w) x (tray_menu w)
    (show_action w) (quit_action w) (actions w) (menus w) (central w) (conns w) (title w)
    (geometry w) (min_size w) (max_size w) (lbl_font w) (lbl_alignment w).
Definition set_tray_menu x w :=
  mkWindow (visible w) (timer w) (timer_lbl w) (edit_time w) (start_stop_btn w) (tray w) (time w)
    (counter w) (old_count w) (ding w) (audioOutput w) (objects w) (audio_log w) (tray_icon w) x
    (show_action w) (quit_action w) (actions w) (menus w) (central w) (conns w) (title w)
    (geometry w) (min_size w) (max_size w) (lbl_font w) (lbl_alignment w).
Definition set_show_action x w :=
  mkWindow (visible w) (timer w) (timer_lbl w) (edit_time w) (start_stop_btn w) (tray w) (time w)
    (counter w) (old_count w) (ding w) (audioOutput w) (objects w) (audio_log w) (tray_icon w)
    (tray_menu w) x (quit_action w) (actions w) (menus w) (central w) (conns w) (title w)
    (geometry w) (min_size w) (max_size w) (lbl_font w) (lbl_alignment w).
Definition set_quit_action x w :=
  mkWindow (visible w) (timer w) (timer_lbl w) (edit_time w) (start_stop_btn w) (tray w) (time w)
    (counter w) (old_count w) (ding w) (audioOutput w) (objects w) (audio_log w) (tray_icon w)
    (tray_menu w) (show_action w) x (actions w) (menus w) (central w) (conns w) (title w)
    (geometry w) (min_size w) (max_size w) (lbl_font w) (lbl_alignment w).
Definition set_actions x w :=
  mkWindow (visible w) (timer w) (timer_lbl w) (edit_time w) (start_stop_btn w) (tray w) (time w)
    (counter w) (old_count w) (ding w) (audioOutput w) (objects w) (audio_log w) (tray_icon w)
    (tray_menu w) (show_action w) (quit_action w) x (menus w) (central w) (conns w) (title w)
    (geometry w) (min_size w) (max_size w) (lbl_font w) (lbl_alignment w).
Definition set_menus x w :=
  mkWindow (visible w) (timer w) (timer_lbl w) (edit_time w) (start_stop_btn w) (tray w) (time w)
    (counter w) (old_count w) (ding w) (audioOutput w) (objects w) (audio_log w) (tray_icon w)
    (tray_menu w) (show_action w) (quit_action w) (actions w) x (central w) (conns w) (title w)
    (geometry w) (min_size w) (max_size w) (lbl_font w) (lbl_alignment w).
Definition set_central x w :=
  mkWindow (visible w) (timer w) (timer_lbl w) (edit_time w) (start_stop_btn w) (tray w) (time w)
    (counter w) (old_count w) (ding w) (audioOutput w) (objects w) (audio_log w) (tray_icon w)
    (tray_menu w) (show_action w) (quit_action w) (actions w) (menus w) x (conns w) (title w)
    (geometry w) (min_size w) (max_size w) (lbl_font w) (lbl_alignment w).
Definition set_conns x w :=
  mkWindow (visible w) (timer w) (timer_lbl w) (edit_time w) (start_stop_btn w) (tray w) (time w)
    (counter w) (old_count w) (ding w) (audioOutput w) (objects w) (audio_log w) (tray_icon w)
    (tray_menu w) (show_action w) (quit_action w) (actions w) (menus w) (central w) x (title w)
    (geometry w) (min_size w) (max_size w) (lbl_font w) (lbl_alignment w).
Definition set_title x w :=
  mkWindow (visible w) (timer w) (timer_lbl w) (edit_time w) (start_stop_btn w) (tray w) (time w)
    (counter w) (old_count w) (ding w) (audioOutput w) (objects w) (audio_log w) (tray_icon w)
    (tray_menu w) (show_action w) (quit_action w) (actions w) (menus w) (central w) (conns w) x
    (geometry w) (min_size w) (max_size w) (lbl_font w) (lbl_alignment w).
Definition set_geometry x w :=
  mkWindow (visible w) (timer w) (timer_lbl w) (edit_time w) (start_stop_btn w) (tray w) (time w)
    (counter w) (old_count w) (ding w) (audioOutput w) (objects w) (audio_log w) (tray_icon w)
    (tray_menu w) (show_action w) (quit_action w) (actions w) (menus w) (central w) (conns w)
    (title w) x (min_size w) (max_size w) (lbl_font w) (lbl_alignment w).
Definition set_min_size x w :=
  mkWindow (visible w) (timer w) (timer_lbl w) (edit_time w) (start_stop_btn w) (tray w) (time w)
    (counter w) (old_count w) (ding w) (audioOutput w) (objects w) (audio_log w) (tray_icon w)
    (tray_menu w) (show_action w) (quit_action w) (actions w) (menus w) (central w) (conns w)
    (title w) (geometry w) x (max_size w) (lbl_font w) (lbl_alignment w).
Definition set_max_size x w :=
  mkWindow (visible w) (timer w) (timer_lbl w) (edit_time w) (start_stop_btn w) (tray w) (time w)
    (counter w) (old_count w) (ding w) (audioOutput w) (objects w) (audio_log w) (tray_icon w)
    (tray_menu w) (show_action w) (quit_action w) (actions w) (menus w) (central w) (conns w)
    (title w) (geometry w) (min_size w) x (lbl_font w) (lbl_alignment w).
Definition set_lbl_font x w :=
  mkWindow (visible w) (timer w) (timer_lbl w) (edit_time w) (start_stop_btn w) (tray w) (time w)
    (counter w) (old_count w) (ding w) (audioOutput w) (objects w) (audio_log w) (tray_icon w)
    (tray_menu w) (show_action w) (quit_action w) (actions w) (menus w) (central w) (conns w)
    (title w) (geometry w) (min_size w) (max_size w) x (lbl_alignment w).
Definition set_lbl_alignment x w :=
  mkWindow (visible w) (timer w) (timer_lbl w) (edit_time w) (start_stop_btn w) (tray w) (time w)
    (counter w) (old_count w) (ding w) (audioOutput w) (objects w) (audio_log w) (tray_icon w)
    (tray_menu w) (show_action w) (quit_action w) (actions w) (menus w) (central w) (conns w)
    (title w) (geometry w) (min_size w) (max_size w) (lbl_font w) x.

(** ** The calls the methods make on their widgets *)

Definition self_show : py Window unit := update (set_visible true).
Definition self_hide : py Window unit := update (set_visible false).
Definition lbl_setText (s : string) : py Window unit := update (set_timer_lbl s).
Definition btn_setText (s : string) : py Window unit :=
  update (fun w => set_start_stop_btn (QPushButton_setText s (start_stop_btn w)) w).
Definition btn_toggle : py Window unit :=
  update (fun w => set_start_stop_btn (QPushButton_toggle (start_stop_btn w)) w).
Definition edit_setDisabled (b : bool) : py Window unit :=
  update (fun w => set_edit_time (QTimeEdit_setDisabled b (edit_time w)) w).
Definition timer_start (msec : Z) : py Window unit :=
  update (fun w => set_timer (QTimer_start msec (timer w)) w).
Definition timer_stop : py Window unit :=
  update (fun w => set_timer (QTimer_stop (timer w)) w).
Definition tray_setVisible (b : bool) : py Window unit :=
  update (fun w => set_tray (QSystemTrayIcon_setVisible b (tray w)) w).
Definition tray_hide : py Window unit := tray_setVisible false.

Definition get_counter : py Window Z := getattr counter "counter".
Definition put_counter (c : Z) : py Window unit := update (set_counter (Some c)).
Definition get_old_count : py Window Z := getattr old_count "old_count".

Definition self_setWindowTitle (t : string) : py Window unit := update (set_title t).

(** [setGeometry(x, y, w, h)]: the size bounded by the size limits. *)
Definition self_setGeometry (x y wd ht : Z) : py Window unit :=
  update (fun w => let sz := size_bounded (wd, ht) (min_size w) (max_size w) in
                   set_geometry (x, y, fst sz, snd sz) w).

(** [setFixedSize(w, h)]: minimum and maximum set to [(w, h)], then
    [resize(w, h)] at the same position. *)
Definition self_setFixedSize (wd ht : Z) : py Window unit :=
  update (set_min_size (wd, ht)) ;;
  update (set_max_size (wd, ht)) ;;
  update (fun w => let '(x, y, _, _) := geometry w in
                   let sz := size_bounded (wd, ht) (min_size w) (max_size w) in
                   set_geometry (x, y, fst sz, snd sz) w).

(** [self.timer_lbl = QLabel(text)]: a new label, default font and
    alignment ([AlignLeft | AlignVCenter]). *)
Definition QLabel_create (text : string) : py Window unit :=
  update (set_timer_lbl text) ;;
  update (set_lbl_font None) ;;
  update (set_lbl_alignment (Z.lor Qt_AlignLeft Qt_AlignVCenter)).

Definition lbl_setFont (family : string) (size : Z) : py Window unit :=
  update (set_lbl_font (Some (family, size))).
Definition lbl_setAlignment (a : Z) : py Window unit := update (set_lbl_alignment a).

(** A new Qt object gets the next object id. *)
Definition new_object : py Window nat :=
  w <- get ;; put (set_objects (S (objects w)) w) ;; ret (objects w).

Definition QAction_create (text : string) : py Window nat :=
  a <- new_object ;;
  update (fun w => set_actions ((actions w ++ [(a, mkQAction text)])%list) w) ;; ret a.

Definition QMenu_create : py Window nat :=
  m <- new_object ;;
  update (fun w => set_menus ((menus w ++ [(m, QMenu_new)])%list) w) ;; ret m.

(** [menu.addAction(action)] on the menu object with id [m]: every
    reference to that menu sees the change. *)
Definition menu_addAction (m a : nat) : py Window unit :=
  update (fun w => set_menus (assoc_update m (QMenu_addAction a) (menus w)) w).

(** [sender.connect(slot)]: appended to the connections, so a signal
    reaches its slots in connection order. *)
Definition connect (s : Sender) (sl : Slot) : py Window unit :=
  update (fun w => set_conns ((conns w ++ [(s, sl)])%list) w).

(** [self.ding.play()]: the player starts playing its source (recorded
    in the log); a player with no source plays nothing. *)
Definition ding_play : py Window unit :=
  p <- getattr ding "ding" ;;
  match mp_source p with
  | Some src =>
      update (fun w => set_ding (Some (QMediaPlayer_play p)) w) ;;
      update (fun w => set_audio_log (audio_log w ++ [src]) w)
  | None => ret tt
  end.

(** ** The methods *)

(** [self.time.minute() * 60 + self.time.second()], line 83. *)
Definition time_in_seconds (t : QTime) : Z := QTime_minute t * 60 + QTime_second t.

(** [editTimeFunc(self, time)], lines 81-85. *)
Definition editTimeFunc (t : QTime) : py Window unit :=
  update (set_time (Some t)) ;;
  t' <- getattr time "time" ;;
  put_counter (time_in_seconds t') ;;
  c <- get_counter ;;
  update (set_old_count (Some c)) ;;
  c <- get_counter ;;
  lbl_setText (mmss c).

(** [sound(self)], lines 132-136: a new [QMediaPlayer] and a new
    [QAudioOutput] on every call. *)
Definition sound : py Window unit :=
  update (fun w => set_objects (S (objects w)) (set_ding (Some QMediaPlayer_new) w)) ;;
  update (fun w => set_objects (S (objects w)) (set_audioOutput (Some (objects w)) w)) ;;
  update (fun w => set_ding (option_map (QMediaPlayer_setAudioOutput (audioOutput w)) (ding w)) w) ;;
  update (fun w => set_ding (option_map (QMediaPlayer_setSource "sources/ding.wav") (ding w)) w).

(** [timerFunc(self)], lines 89-118. *)
Definition timerFunc : py Window unit :=
  sound ;;
  try_except_AttributeError
    (c <- get_counter ;; put_counter (c - 1) ;;
     c <- get_counter ;; lbl_setText (mmss c) ;;
     c <- get_counter ;;
     if c =? 0 then
       self_show ;; tray_hide ;; btn_toggle ;; btn_setText "start" ;;
       o <- get_old_count ;; put_counter o ;;
       o <- get_old_count ;; lbl_setText (mmss o) ;;
       edit_setDisabled false ;; ding_play ;; timer_stop
     else
       c <- get_counter ;;
       if c <? 0 then
         btn_toggle ;; btn_setText "start" ;;
         o <- get_old_count ;; put_counter o ;;
         o <- get_old_count ;; lbl_setText (mmss o) ;;
         edit_setDisabled false ;; ding_play ;; timer_stop
       else ret tt)
    (btn_toggle ;; btn_setText "start" ;; edit_setDisabled false ;; ding_play ;; timer_stop).

(** [startStop(self, checked)], lines 121-129. *)
Definition startStop (checked : bool) : py Window unit :=
  if checked then
    btn_setText "stop" ;; timer_start 1000 ;; edit_setDisabled true
  else
    btn_setText "start" ;; edit_setDisabled false ;; timer_stop.

(** [closeEvent(self, event)], lines 138-141: returns whether the close
    event is still accepted when the handler returns ([event.ignore()]
    clears it). *)
Definition closeEvent (accepted : bool) : py Window bool :=
  tray_setVisible true ;;
  let accepted := false in
  self_hide ;;
  ret accepted.

(** The slots connected to the tray menu's actions, lines 41-43: "Show"
    runs [self.show] then [self.tray.hide] (in connection order), "Exit"
    runs [sys.exit]. *)
Definition show_action_triggered : py Window unit := self_show ;; tray_hide.
Definition quit_action_triggered : py Window unit := raise SystemExit.

(** ** Construction, lines 21-78 *)

(** The state right after [super().__init__()]: a hidden main window;
    the widget fields hold default objects until [setUpMainWindow]
    assigns them. *)
Definition QMainWindow_new : Window :=
  mkWindow false QTimer_new "" QTimeEdit_new (QPushButton_new "") QSystemTrayIcon_new
           None None None None None 0 [] None None None None [] [] None []
           "" (0, 0, 640, 480) (0, 0) (QWIDGETSIZE_MAX, QWIDGETSIZE_MAX) None (Z.lor Qt_AlignLeft Qt_AlignVCenter).

(** [setUpMainWindow(self)], lines 57-78. *)
Definition setUpMainWindow : py Window unit :=
  self_setWindowTitle "Timer" ;;
  update (set_timer QTimer_new) ;;
  self_setGeometry 960 540 0 0 ;;
  self_setFixedSize 150 200 ;;
  QLabel_create "00:00" ;;
  lbl_setFont "" 30 ;;
  lbl_setAlignment Qt_AlignCenter ;;
  update (set_edit_time QTimeEdit_new) ;;
  update (fun w => set_edit_time (QTimeEdit_setMaximumTime (QTime_new 0 61 61 0) (edit_time w)) w) ;;
  update (fun w => set_edit_time (QTimeEdit_setDisplayFormat "mm:ss" (edit_time w)) w) ;;
  update (set_start_stop_btn (QPushButton_new "start")) ;;
  update (fun w => set_start_stop_btn (QPushButton_setCheckable true (start_stop_btn w)) w) ;;
  connect timeChanged Slot_editTimeFunc ;;
  connect timeout Slot_timerFunc ;;
  connect clicked Slot_startStop.

Definition QVBoxLayout_new : QVBoxLayout := [].
Definition QVBoxLayout_addWidget (x : Widget) (l : QVBoxLayout) : QVBoxLayout := (l ++ [x])%list.
Definition QWidget_new : QWidget := mkQWidget None.

(** [QWidget::setLayout]: ignored (with a warning) when the widget
    already has a layout. *)
Definition QWidget_setLayout (l : QVBoxLayout) (wg : QWidget) : QWidget :=
  match wg_layout wg with
  | None => mkQWidget (Some l)
  | Some _ => wg
  end.

(** [setLayout(self)], lines 48-55 (it overrides [QWidget.setLayout]):
    label, editor and button stacked in a new central widget. *)
Definition setLayout : py Window unit :=
  let layout := QVBoxLayout_new in
  let layout := QVBoxLayout_addWidget timer_lbl_w layout in
  let layout := QVBoxLayout_addWidget edit_time_w layout in
  let layout := QVBoxLayout_addWidget start_stop_btn_w layout in
  let widget := QWidget_new in
  let widget := QWidget_setLayout layout widget in
  update (set_central (Some widget)).

(** [systemTray(self)], lines 31-45: the tray icon with its image and a
    context menu; the menu is attached before its actions are added,
    which the tray sees because it holds the same menu object. *)
Definition systemTray : py Window unit :=
  update (set_tray_icon (Some "sources/icon.png")) ;;
  update (set_tray QSystemTrayIcon_new) ;;
  i <- getattr tray_icon "tray_icon" ;;
  update (fun w => set_tray (QSystemTrayIcon_setIcon i (tray w)) w) ;;
  m <- QMenu_create ;; update (set_tray_menu (Some m)) ;;
  m <- getattr tray_menu "tray_menu" ;;
  update (fun w => set_tray (QSystemTrayIcon_setContextMenu m (tray w)) w) ;;
  a <- QAction_create "Show" ;; update (set_show_action (Some a)) ;;
  a <- QAction_create "Exit" ;; update (set_quit_action (Some a)) ;;
  a <- getattr quit_action "quit_action" ;; connect (triggered a) Slot_sys_exit ;;
  a <- getattr show_action "show_action" ;; connect (triggered a) Slot_show ;;
  a <- getattr show_action "show_action" ;; connect (triggered a) Slot_tray_hide ;;
  m <- getattr tray_menu "tray_menu" ;; a <- getattr show_action "show_action" ;; menu_addAction m a ;;
  m <- getattr tray_menu "tray_menu" ;; a <- getattr quit_action "quit_action" ;; menu_addAction m a.

(** [initializeUI(self)], lines 25-29. *)
Definition initializeUI : py Window unit :=
  setUpMainWindow ;; setLayout ;; systemTray ;; self_show.

(** [Window()], lines 21-23 and 145: the state after construction. *)
Definition window_init : Window := snd (run initializeUI QMainWindow_new).

(** ** Symbolic execution of the methods *)

Ltac unfold_calls :=
  unfold tray_hide, self_show, self_hide, lbl_setText, btn_setText, btn_toggle, edit_setDisabled,
    timer_start, timer_stop, tray_setVisible, get_counter, put_counter,
    get_old_count, ding_play.

(** Reduces attribute reads of attribute writes, and nothing else. *)
Ltac win_red :=
  cbn beta iota zeta delta [set_visible set_timer set_timer_lbl set_edit_time set_start_stop_btn
    set_tray set_time set_counter set_old_count set_ding set_audioOutput set_objects set_audio_log
    set_tray_icon set_tray_menu set_show_action set_quit_action set_actions set_menus set_central set_conns
    set_title set_geometry set_min_size set_max_size set_lbl_font set_lbl_alignment
    visible timer timer_lbl edit_time start_stop_btn tray time counter old_count ding
    audioOutput objects audio_log tray_icon tray_menu show_action quit_action actions menus central conns
    title geometry min_size max_size lbl_font lbl_alignment
    mp_source mp_output mp_playing QMediaPlayer_new QMediaPlayer_setAudioOutput
    QMediaPlayer_setSource QMediaPlayer_play option_map].

(** Runs a statement: rewrite with the [py_run] rules, reduce the reads,
    and use the hypotheses on the attributes of the start state. *)
Ltac py_exec :=
  repeat (progress (autorewrite with py_run; win_red;
          repeat match goal with H : ?f ?w = _ |- context [?f ?w] => rewrite H end)).

(** ** Behaviour of each method, branch by branch *)

(** [editTimeFunc(t)] stores [t], sets [counter] and [old_count] to its
    minutes and seconds in seconds, and shows them on the label. *)
Lemma run_editTimeFunc (t : QTime) (w : Window) :
  let '(r, w') := run (editTimeFunc t) w in
  r = inr tt /\ time w' = Some t /\
  counter w' = Some (time_in_seconds t) /\ old_count w' = Some (time_in_seconds t) /\
  timer_lbl w' = mmss (time_in_seconds t) /\
  timer w' = timer w /\ edit_time w' = edit_time w /\ start_stop_btn w' = start_stop_btn w /\
  visible w' = visible w /\ tray w' = tray w /\ audio_log w' = audio_log w.
Proof. unfold editTimeFunc; unfold_calls. py_exec. repeat split. Qed.

(** C19: [sound()] builds a new player wired to a new audio output and loads
    the alert clip; it plays nothing. *)
Lemma sound_spec (w : Window) :
  let '(r, w') := run sound w in
  r = inr tt /\
  ding w' = Some (mkQMediaPlayer (Some "sources/ding.wav") (Some (S (objects w))) false) /\
  audioOutput w' = Some (S (objects w)) /\ objects w' = S (S (objects w)) /\
  audio_log w' = audio_log w /\ counter w' = counter w /\ timer w' = timer w.
Proof. unfold sound. py_exec. repeat split. Qed.

(** A tick before any duration was entered: [self.counter] is missing,
    the [except AttributeError] branch stops the timer, releases the
    button and the editor and plays the alert; nothing is decremented. *)
Lemma run_timerFunc_unset (w : Window) :
  counter w = None ->
  let '(r, w') := run timerFunc w in
  r = inr tt /\ counter w' = None /\ timer w' = QTimer_stop (timer w) /\
  start_stop_btn w' = QPushButton_setText "start" (QPushButton_toggle (start_stop_btn w)) /\
  edit_time w' = QTimeEdit_setDisabled false (edit_time w) /\
  audio_log w' = (audio_log w ++ ["sources/ding.wav"])%list /\
  visible w' = visible w /\ tray w' = tray w /\ timer_lbl w' = timer_lbl w /\
  time w' = time w /\ old_count w' = old_count w.
Proof. intros Hc. unfold timerFunc, sound; unfold_calls. py_exec. repeat split. Qed.

(** A tick that brings the counter to [0]: the window is shown, the tray
    icon hidden, the timer stopped, the counter reset to [old_count] and
    the alert played. *)
Lemma run_timerFunc_complete (w : Window) (o : Z) :
  counter w = Some 1 -> old_count w = Some o ->
  let '(r, w') := run timerFunc w in
  r = inr tt /\ counter w' = Some o /\ timer_lbl w' = mmss o /\
  timer w' = QTimer_stop (timer w) /\
  start_stop_btn w' = QPushButton_setText "start" (QPushButton_toggle (start_stop_btn w)) /\
  edit_time w' = QTimeEdit_setDisabled false (edit_time w) /\
  audio_log w' = (audio_log w ++ ["sources/ding.wav"])%list /\
  visible w' = true /\ tray_visible (tray w') = false /\ old_count w' = Some o /\ time w' = time w.
Proof.
  intros Hc Ho. unfold timerFunc, sound; unfold_calls. py_exec.
  change (1 - 1 =? 0) with true. py_exec. repeat split.
Qed.

(** A tick on a counter already at [0] or below: the [elif] branch does
    the same reset and alert but neither shows the window nor hides the
    tray icon. *)
Lemma run_timerFunc_overrun (w : Window) (c o : Z) :
  counter w = Some c -> c <= 0 -> old_count w = Some o ->
  let '(r, w') := run timerFunc w in
  r = inr tt /\ counter w' = Some o /\ timer_lbl w' = mmss o /\
  timer w' = QTimer_stop (timer w) /\
  start_stop_btn w' = QPushButton_setText "start" (QPushButton_toggle (start_stop_btn w)) /\
  edit_time w' = QTimeEdit_setDisabled false (edit_time w) /\
  audio_log w' = (audio_log w ++ ["sources/ding.wav"])%list /\
  visible w' = visible w /\ tray w' = tray w /\ old_count w' = Some o /\ time w' = time w.
Proof.
  intros Hc Hle Ho. unfold timerFunc, sound; unfold_calls. py_exec.
  destruct (Z.eqb_spec (c - 1) 0); [lia|]. py_exec.
  destruct (Z.ltb_spec (c - 1) 0); [|lia]. py_exec. repeat split.
Qed.

(** An ordinary tick: the counter goes down by one and the label follows;
    the timer keeps running and nothing is played. *)
Lemma run_timerFunc_running (w : Window) (c : Z) :
  counter w = Some c -> 1 < c ->
  let '(r, w') := run timerFunc w in
  r = inr tt /\ counter w' = Some (c - 1) /\ timer_lbl w' = mmss (c - 1) /\
  timer w' = timer w /\ start_stop_btn w' = start_stop_btn w /\ edit_time w' = edit_time w /\
  audio_log w' = audio_log w /\ visible w' = visible w /\ tray w' = tray w /\
  old_count w' = old_count w /\ time w' = time w.
Proof.
  intros Hc Hlt. unfold timerFunc, sound; unfold_calls. py_exec.
  destruct (Z.eqb_spec (c - 1) 0); [lia|]. py_exec.
  destruct (Z.ltb_spec (c - 1) 0); [lia|]. py_exec. repeat split.
Qed.

(** [startStop(True)]: button text "stop", timer started at 1000 ms,
    editor disabled. *)
Lemma run_startStop_true (w : Window) :
  run (startStop true) w =
  (inr tt, set_edit_time (QTimeEdit_setDisabled true (edit_time w))
             (set_timer (QTimer_start 1000 (timer w))
               (set_start_stop_btn (QPushButton_setText "stop" (start_stop_btn w)) w))).
Proof. unfold startStop; unfold_calls. py_exec. reflexivity. Qed.

(** [startStop(False)]: button text "start", editor enabled, timer
    stopped; the counter is left where it is. *)
Lemma run_startStop_false (w : Window) :
  run (startStop false) w =
  (inr tt, set_timer (QTimer_stop (timer w))
             (set_edit_time (QTimeEdit_setDisabled false (edit_time w))
               (set_start_stop_btn (QPushButton_setText "start" (start_stop_btn w)) w))).
Proof. unfold startStop; unfold_calls. py_exec. reflexivity. Qed.

(** [closeEvent]: the close is refused, the window hidden and the tray
    icon shown; nothing else changes. *)
Lemma run_closeEvent (accepted : bool) (w : Window) :
  run (closeEvent accepted) w =
  (inr false, set_visible false (set_tray (QSystemTrayIcon_setVisible true (tray w)) w)).
Proof. unfold closeEvent; unfold_calls. py_exec. reflexivity. Qed.

(** The tray's "Show": window shown, then tray icon hidden. *)
Lemma run_show_action (w : Window) :
  run show_action_triggered w =
  (inr tt, set_tray (QSystemTrayIcon_setVisible false (tray w)) (set_visible true w)).
Proof. unfold show_action_triggered; unfold_calls. py_exec. reflexivity. Qed.

(** The tray's "Exit": [sys.exit] raises [SystemExit]. *)
Lemma run_quit_action (w : Window) :
  run quit_action_triggered w = (inl SystemExit, w).
Proof. reflexivity. Qed.

(** C17: the state the constructor builds: label "00:00", timer stopped, no
    duration, window shown, tray icon hidden, a checkable "start"
    button, and an editor whose maximum is still 23:59:59.999: the
    [setMaximumTime(QTime(0, 61, 61, 0))] of line 70 had no effect. *)
Lemma window_init_state :
  timer_lbl window_init = "00:00" /\ tm_active (timer window_init) = false /\
  counter window_init = None /\ old_count window_init = None /\
  visible window_init = true /\ tray_visible (tray window_init) = false /\
  btn_text (start_stop_btn window_init) = "start" /\ btn_checkable (start_stop_btn window_init) = true /\
  te_max (edit_time window_init) = QTime_new 23 59 59 999 /\ te_enabled (edit_time window_init) = true.
Proof. repeat split. Qed.

(** C18: reading minutes and seconds back from the stored counter gives the
    edited time's minutes and seconds. *)
Lemma time_in_seconds_minsec (t : QTime) :
  QTime_isValid t = true ->
  time_in_seconds t // 60 = QTime_minute t /\ time_in_seconds t %% 60 = QTime_second t.
Proof.
  intros Hv. destruct (QTime_minute_second_range t Hv) as [_ Hs].
  exact (minsec_div (QTime_minute t) (QTime_second t) Hs).
Qed.

Lemma time_in_seconds_minsec_witness :
  QTime_isValid (QTime_new 0 2 5 0) = true /\
  time_in_seconds (QTime_new 0 2 5 0) // 60 = 2 /\ time_in_seconds (QTime_new 0 2 5 0) %% 60 = 5.
Proof.
  assert (V : QTime_isValid (QTime_new 0 2 5 0) = true) by reflexivity.
  split; [exact V|]. exact (time_in_seconds_minsec _ V).
Defined.


(** C20: the window the constructor builds is titled "Timer" and fixed at
    150 x 200 at (960, 540): [setGeometry(960, 540, 0, 0)] keeps the
    position and [setFixedSize] gives the size; the label shows "00:00"
    in a 30-point font, centred horizontally and vertically (bits 2 and 7
    of its alignment set, the default left alignment bit 0 cleared: the
    flags were set on the label after it was created). *)
Theorem window_init_presentation :
  title window_init = "Timer" /\ geometry window_init = (960, 540, 150, 200) /\
  min_size window_init = (150, 200) /\ max_size window_init = (150, 200) /\
  lbl_font window_init = Some ("", 30) /\
  Z.testbit (lbl_alignment window_init) 2 = true /\ Z.testbit (lbl_alignment window_init) 7 = true /\
  Z.testbit (lbl_alignment window_init) 0 = false.
Proof. vm_compute. repeat split. Qed.
