(* ===== verification/EventLoop.v ===== *)
(** The Qt event loop that drives [Window] ([app.exec()], line 146): the
    events the user and the timer produce, when the toolkit can deliver
    each of them, the slot each one runs (the [connect] calls of lines
    41-43 and 76-78), and the resulting step relation on the process. *)

From Stdlib Require Import String ZArith Bool List Lia.
From Stdlib Require Import Classes.EquivDec.
From S2P Require Import Prelude PyMonad PyFormat Qt Window.
Import ListNotations.

Open Scope string_scope.
Open Scope Z_scope.
Open Scope monad_scope.

Inductive Event :=
| TimeChanged (t : QTime)   (** the user edits [edit_time] to [t] *)
| Clicked                   (** the user clicks [start_stop_btn] *)
| Timeout                   (** [timer] fires *)
| CloseRequested            (** the user closes the main window *)
| ShowTriggered             (** the tray menu's "Show" *)
| ExitTriggered.            (** the tray menu's "Exit" *)

Definition event_eq_dec (e1 e2 : Event) : {e1 = e2} + {e1 <> e2}.
Proof. decide equality. destruct t as [a], t0 as [b]. destruct (Z.eq_dec a b); [left|right]; congruence. Defined.

#[export] Instance Event_EqDec : EquivDec.EqDec Event eq := event_eq_dec.

(** Which events the toolkit can deliver: the editor and the button live
    in the main window and only take input while it is shown (the
    editor also only while enabled, and only values its format and range
    allow); a stopped [QTimer] does not fire; the tray menu is reachable
    only through a visible tray icon. *)
Definition deliverable (w : Window) (e : Event) : bool :=
  match e with
  | TimeChanged t => visible w && QTimeEdit_accepts (edit_time w) t
  | Clicked => visible w
  | Timeout => tm_active (timer w)
  | CloseRequested => visible w
  | ShowTriggered | ExitTriggered => tray_visible (tray w)
  end.

(** The slot each event runs.  A click on a checkable button first flips
    its checked state, then emits [clicked(checked)]; an edit stores the
    new value, then emits [timeChanged(time)]; an accepted close event
    would close the last window and end [app.exec()]. *)
Definition handle (e : Event) : py Window unit :=
  match e with
  | TimeChanged t =>
      update (fun w => set_edit_time (QTimeEdit_setTime t (edit_time w)) w) ;;
      editTimeFunc t
  | Clicked =>
      btn_toggle ;;
      w <- get ;;
      startStop (btn_checked (start_stop_btn w))
  | Timeout => timerFunc
  | CloseRequested =>
      accepted <- closeEvent true ;;
      if accepted then self_hide ;; raise SystemExit else ret tt
  | ShowTriggered => show_action_triggered
  | ExitTriggered => quit_action_triggered
  end.

(** The process: running with its window, or exited. *)
Inductive Proc :=
| Running (w : Window)
| Exited.

(** One event: [None] when the toolkit cannot deliver it.  [SystemExit]
    ends the process; any other exception leaving a slot is printed by
    PySide and the loop goes on with the state the slot left. *)
Definition step_fn (e : Event) (w : Window) : option Proc :=
  if deliverable w e then
    match run (handle e) w with
    | (inl SystemExit, _) => Some Exited
    | (_, w') => Some (Running w')
    end
  else None.

Inductive step : Proc -> Event -> Proc -> Prop :=
| step_intro w e p : step_fn e w = Some p -> step (Running w) e p.

Inductive reachable : Proc -> Prop :=
| reach_init : reachable (Running window_init)
| reach_step p e p' : reachable p -> step p e p' -> reachable p'.

(** One second of the timer: the state after a [timeout] when the timer
    runs, unchanged otherwise. *)
Definition tick (w : Window) : Window :=
  match step_fn Timeout w with
  | Some (Running w') => w'
  | _ => w
  end.

Definition ticks (n : nat) (w : Window) : Window := Nat.iter n tick w.

(** A finite sequence of events from a state, stopping at the first
    event that cannot be delivered. *)
Fixpoint run_events (es : list Event) (p : Proc) : Proc :=
  match es, p with
  | [], _ => p
  | e :: es', Running w =>
      match step_fn e w with
      | Some p' => run_events es' p'
      | None => p
      end
  | _ :: _, Exited => Exited
  end.

(** ** Concrete runs from the initial state *)

Definition proc_window (p : Proc) : Window :=
  match p with Running w => w | Exited => window_init end.

(** 00:05 and 00:00 in the editor. *)
Definition t_0005 : QTime := QTime_new 0 0 5 0.
Definition t_0000 : QTime := QTime_new 0 0 0 0.

(** A five-second countdown, configured and then started. *)
Definition w_set5 : Window := proc_window (run_events [TimeChanged t_0005] (Running window_init)).
Definition w_run5 : Window := proc_window (run_events [TimeChanged t_0005; Clicked] (Running window_init)).

(** Started without any duration entered. *)
Definition w_run_unset : Window := proc_window (run_events [Clicked] (Running window_init)).

(** A duration of zero: 00:05 entered, then 00:00. *)
Definition w_zero : Window :=
  proc_window (run_events [TimeChanged t_0005; TimeChanged t_0000] (Running window_init)).

(** The window closed to the tray. *)
Definition w_tray : Window := proc_window (run_events [CloseRequested] (Running window_init)).

(** States reached by a run of events from a reachable state are reachable. *)
Lemma run_events_reachable (es : list Event) (p : Proc) :
  reachable p -> reachable (run_events es p).
Proof.
  revert p. induction es as [|e es IH]; intros p R; [exact R|].
  destruct p as [w|]; cbn; [|exact R].
  destruct (step_fn e w) as [p'|] eqn:E; [|exact R].
  apply IH. eapply reach_step; [exact R | constructor; exact E].
Qed.


Lemma reachable_from_init (es : list Event) (w : Window) :
  run_events es (Running window_init) = Running w -> reachable (Running w).
Proof. intros E. rewrite <- E. apply run_events_reachable, reach_init. Qed.

Lemma reachable_w_run5 : reachable (Running w_run5).
Proof. apply (reachable_from_init [TimeChanged t_0005; Clicked]). vm_compute. reflexivity. Qed.

Lemma reachable_w_set5 : reachable (Running w_set5).
Proof. apply (reachable_from_init [TimeChanged t_0005]). vm_compute. reflexivity. Qed.

Lemma reachable_w_run_unset : reachable (Running w_run_unset).
Proof. apply (reachable_from_init [Clicked]). vm_compute. reflexivity. Qed.

Lemma reachable_w_zero : reachable (Running w_zero).
Proof. apply (reachable_from_init [TimeChanged t_0005; TimeChanged t_0000]). vm_compute. reflexivity. Qed.

Lemma reachable_w_tray : reachable (Running w_tray).
Proof. apply (reachable_from_init [CloseRequested]). vm_compute. reflexivity. Qed.
