(* ===== verification/Dispatch.v ===== *)
(** Signal delivery as Qt performs it for [src/timer.py]: a signal runs
    the slots connected to it, read from the connection table that the
    constructor's [connect] calls built (lines 41-43 and 76-78), in
    connection order; the editor and the button take input because they
    sit in the central widget [setLayout] installed (lines 48-55); the
    tray's "Show" and "Exit" entries are the actions [systemTray] added to
    the menu the tray icon points to (lines 36-45).  The handlers never
    change this wiring, and on every reachable state this delivery is
    equivalent to the dispatch [EventLoop.handle] that the other theorems
    use. *)

From Stdlib Require Import String ZArith Bool List Lia.
From S2P Require Import Prelude PyMonad PyFormat Qt Window EventLoop.
Import ListNotations.

Open Scope string_scope.
Open Scope nat_scope.
Open Scope monad_scope.

Definition sender_eqb (a b : Sender) : bool :=
  match a, b with
  | timeChanged, timeChanged | timeout, timeout | clicked, clicked => true
  | triggered x, triggered y => Nat.eqb x y
  | _, _ => false
  end.

Definition widget_eqb (a b : Widget) : bool :=
  match a, b with
  | timer_lbl_w, timer_lbl_w | edit_time_w, edit_time_w | start_stop_btn_w, start_stop_btn_w => true
  | _, _ => false
  end.

(** The arguments a signal carries: [timeChanged(QTime)],
    [clicked(bool checked)], [triggered(bool checked)], [timeout()]. *)
Inductive Arg := ATime (t : QTime) | AChecked (b : bool) | ANone.

(** Calling a connected Python callable with the signal's arguments;
    PySide drops the arguments a slot does not take.  Every slot of this
    program is connected to a signal of its own argument type, so the
    last case is never taken. *)
Definition slot_run (sl : Slot) (a : Arg) : py Window unit :=
  match sl, a with
  | Slot_editTimeFunc, ATime t => editTimeFunc t
  | Slot_startStop, AChecked b => startStop b
  | Slot_timerFunc, _ => timerFunc
  | Slot_show, _ => self_show
  | Slot_tray_hide, _ => tray_hide
  | Slot_sys_exit, _ => raise SystemExit
  | _, _ => ret tt
  end.

Definition slots_for (s : Sender) (cs : list (Sender * Slot)) : list Slot :=
  map snd (filter (fun p => sender_eqb s (fst p)) cs).

(** An exception leaving a Python slot is printed and the emission goes
    on with the next slot; [SystemExit] ends the process. *)
Definition guard (c : py Window unit) : py Window unit :=
  catch c (fun e => match e with SystemExit => raise SystemExit | _ => ret tt end).

Fixpoint run_slots (sls : list Slot) (a : Arg) : py Window unit :=
  match sls with
  | [] => ret tt
  | sl :: rest => guard (slot_run sl a) ;; run_slots rest a
  end.

(** [emit]: the slots connected when the emission starts. *)
Definition emit (s : Sender) (a : Arg) : py Window unit :=
  w <- get ;; run_slots (slots_for s (conns w)) a.

(** A widget of the central widget's layout is on screen with the window. *)
Definition shown_widget (w : Window) (x : Widget) : bool :=
  match central w with
  | Some (mkQWidget (Some l)) => existsb (widget_eqb x) l
  | _ => false
  end.

Definition action_has_text (w : Window) (text : string) (a : nat) : bool :=
  match assoc_find a (actions w) with
  | Some act => String.eqb (act_text act) text
  | None => false
  end.

(** The entry of the tray's context menu with that text: looked up in
    the menu object the tray points to. *)
Definition tray_entry (w : Window) (text : string) : option nat :=
  match tray_context_menu (tray w) with
  | Some m =>
      match assoc_find m (menus w) with
      | Some mn => find (action_has_text w text) (menu_actions mn)
      | None => None
      end
  | None => None
  end.

Definition has_entry (w : Window) (text : string) : bool :=
  match tray_entry w text with Some _ => true | None => false end.

(** Whether the desktop has a notification area is the platform's
    ([QSystemTrayIcon.isSystemTrayAvailable()], which the program never
    asks): without one the tray icon is never on screen and its menu
    cannot be opened. *)
Section Platform.
Variable tray_available : bool.

Definition deliverable_qt (w : Window) (e : Event) : bool :=
  match e with
  | TimeChanged t => visible w && shown_widget w edit_time_w && QTimeEdit_accepts (edit_time w) t
  | Clicked => visible w && shown_widget w start_stop_btn_w
  | Timeout => tm_active (timer w)
  | CloseRequested => visible w
  | ShowTriggered => tray_available && tray_visible (tray w) && has_entry w "Show"
  | ExitTriggered => tray_available && tray_visible (tray w) && has_entry w "Exit"
  end.

(** Choosing a tray menu entry emits [triggered(False)] of its action. *)
Definition trigger (text : string) : py Window unit :=
  w <- get ;;
  match tray_entry w text with
  | Some a => emit (triggered a) (AChecked false)
  | None => ret tt
  end.

(** What the toolkit does on each event: the editor stores the value
    and emits [timeChanged]; the button flips its state and emits
    [clicked(checked)]; the close event goes to the [closeEvent]
    override (a virtual method, not a signal). *)
Definition dispatch (e : Event) : py Window unit :=
  match e with
  | TimeChanged t =>
      update (fun w => set_edit_time (QTimeEdit_setTime t (edit_time w)) w) ;;
      emit timeChanged (ATime t)
  | Clicked =>
      btn_toggle ;;
      w <- get ;;
      emit clicked (AChecked (btn_checked (start_stop_btn w)))
  | Timeout => emit timeout ANone
  | CloseRequested =>
      accepted <- closeEvent true ;;
      if accepted then self_hide ;; raise SystemExit else ret tt
  | ShowTriggered => trigger "Show"
  | ExitTriggered => trigger "Exit"
  end.

Definition proc_of (r : (PyExc + unit) * Window) : Proc :=
  match r with
  | (inl SystemExit, _) => Exited
  | (_, w') => Running w'
  end.

Definition step_qt (e : Event) (w : Window) : option Proc :=
  if deliverable_qt w e then Some (proc_of (run (dispatch e) w)) else None.

End Platform.

(** ** The wiring the constructor builds *)

Definition wiring (w : Window) :=
  (conns w, menus w, actions w, central w, tray_menu w, show_action w, quit_action w,
   tray_context_menu (tray w), tray_icon_file (tray w)).

(** Object ids: the menu is object 0, "Show" 1, "Exit" 2. *)
Definition init_conns : list (Sender * Slot) :=
  [(timeChanged, Slot_editTimeFunc); (timeout, Slot_timerFunc); (clicked, Slot_startStop);
   (triggered 2, Slot_sys_exit); (triggered 1, Slot_show); (triggered 1, Slot_tray_hide)].

Definition init_wiring :=
  (init_conns, [(0, mkQMenu [1; 2])], [(1, mkQAction "Show"); (2, mkQAction "Exit")],
   Some (mkQWidget (Some [timer_lbl_w; edit_time_w; start_stop_btn_w])),
   Some 0, Some 1, Some 2, Some 0, Some "sources/icon.png").

(** A statement that leaves the wiring alone. *)
Definition keeps_wiring {A} (c : py Window A) : Prop :=
  forall w, wiring (snd (run c w)) = wiring w.


Lemma keeps_ret {A} (a : A) : keeps_wiring (ret a).
Proof. intros w. reflexivity. Qed.

Lemma keeps_get : keeps_wiring get.
Proof. intros w. reflexivity. Qed.

Lemma keeps_raise {A} (e : PyExc) : keeps_wiring (raise (T := A) e).
Proof. intros w. reflexivity. Qed.

Lemma keeps_update (f : Window -> Window) :
  (forall w, wiring (f w) = wiring w) -> keeps_wiring (update f).
Proof. intros H w. rewrite run_update. apply H. Qed.

Lemma keeps_getattr {A} (sel : Window -> option A) name : keeps_wiring (getattr sel name).
Proof. intros w. rewrite run_getattr. destruct (sel w); reflexivity. Qed.

Lemma keeps_bind {A B} (c : py Window A) (f : A -> py Window B) :
  keeps_wiring c -> (forall a, keeps_wiring (f a)) -> keeps_wiring (bind c f).
Proof.
  intros Hc Hf w. rewrite run_bind. specialize (Hc w).
  destruct (run c w) as [[e|a] w']; cbn in *; [exact Hc|]. rewrite Hf. exact Hc.
Qed.

Lemma keeps_catch {A} (body : py Window A) (h : PyExc -> py Window A) :
  keeps_wiring body -> (forall e, keeps_wiring (h e)) -> keeps_wiring (catch body h).
Proof.
  intros Hb Hh w. rewrite run_catch. specialize (Hb w).
  destruct (run body w) as [[e|a] w']; cbn in *; [rewrite Hh|]; exact Hb.
Qed.


(** Proves [keeps_wiring] of a method body, statement by statement,
    splitting on the tests and matches of the code. *)
Ltac keeps :=
  repeat (intros; match goal with
  | |- keeps_wiring (ret _) => apply keeps_ret
  | |- keeps_wiring get => apply keeps_get
  | |- keeps_wiring (raise _) => apply keeps_raise
  | |- keeps_wiring (getattr _ _) => apply keeps_getattr
  | |- keeps_wiring (update _) => apply keeps_update; intros; reflexivity
  | |- keeps_wiring (bind _ _) => apply keeps_bind
  | |- keeps_wiring (catch _ _) => apply keeps_catch
  | |- keeps_wiring (match ?x with _ => _ end) => destruct x
  end).

(** ** The handlers keep the wiring *)

Lemma handle_keeps_wiring (e : Event) : keeps_wiring (handle e).
Proof.
  destruct e; cbn [handle];
  unfold editTimeFunc, timerFunc, sound, startStop, closeEvent, show_action_triggered,
    quit_action_triggered, try_except_AttributeError; unfold_calls; keeps.
Qed.

Lemma step_fn_keeps_wiring (e : Event) (w w' : Window) :
  step_fn e w = Some (Running w') -> wiring w' = wiring w.
Proof.
  unfold step_fn. destruct (deliverable w e); [|discriminate].
  pose proof (handle_keeps_wiring e w) as K.
  destruct (run (handle e) w) as [[[?|]|[]] w0]; intros H; inv H; exact K.
Qed.

(** Every reachable state has the wiring the constructor built. *)
Lemma reachable_wiring (w : Window) : reachable (Running w) -> wiring w = init_wiring.
Proof.
  intros R. remember (Running w) as p eqn:Ep. revert w Ep.
  induction R as [|p e p' R IH S]; intros w Ep.
  - injection Ep as <-. vm_compute. reflexivity.
  - inv S. rewrite (step_fn_keeps_wiring _ _ _ H). eapply IH. reflexivity.
Qed.

(** ** Delivery through the wiring is the dispatch of [EventLoop] *)

Lemma step_fn_proc_of (e : Event) (w : Window) :
  step_fn e w = if deliverable w e then Some (proc_of (run (handle e) w)) else None.
Proof.
  unfold step_fn. destruct (deliverable w e); [|reflexivity].
  destruct (run (handle e) w) as [[[?|]|[]] ?]; reflexivity.
Qed.

Lemma wiring_conns (w : Window) : wiring w = init_wiring -> conns w = init_conns.
Proof. intros H. injection H. intros. assumption. Qed.

(** The deliverable events are the same: the editor and the button are
    in the central widget, and the tray menu has both entries. *)
Lemma deliverable_qt_wired (w : Window) (e : Event) :
  wiring w = init_wiring -> deliverable_qt true w e = deliverable w e.
Proof.
  intros H. injection H as Hc Hm Ha Hce _ _ _ Htc _.
  destruct e; cbn [deliverable_qt deliverable];
    unfold shown_widget, has_entry, tray_entry, action_has_text;
    rewrite ?Hce, ?Htc, ?Hm, ?Ha; cbn; rewrite ?andb_true_r; reflexivity.
Qed.

(** One slot run under [guard] ends the process exactly when the slot
    itself does, in the same state otherwise. *)
Lemma proc_of_guard (c : py Window unit) (w : Window) :
  proc_of (run (guard c ;; ret tt) w) = proc_of (run c w).
Proof.
  unfold guard. rewrite run_bind, run_catch.
  destruct (run c w) as [[[?|]|[]] w']; autorewrite with py_run; reflexivity.
Qed.

Lemma proc_of_bind {A} (c : py Window A) (f g : A -> py Window unit) (w : Window) :
  keeps_wiring c ->
  (forall a w', wiring w' = wiring w -> proc_of (run (f a) w') = proc_of (run (g a) w')) ->
  proc_of (run (bind c f) w) = proc_of (run (bind c g) w).
Proof.
  intros K H. rewrite !run_bind. specialize (K w).
  destruct (run c w) as [[e|a] w']; [reflexivity|]. apply H. exact K.
Qed.

Lemma run_emit (s : Sender) (a : Arg) (w : Window) :
  conns w = init_conns -> run (emit s a) w = run (run_slots (slots_for s init_conns) a) w.
Proof. intros H. unfold emit. rewrite run_bind, run_get, H. reflexivity. Qed.

(** A signal with a single connected slot. *)
Lemma proc_of_emit_single (s : Sender) (a : Arg) (sl : Slot) (w : Window) :
  conns w = init_conns -> slots_for s init_conns = [sl] ->
  proc_of (run (emit s a) w) = proc_of (run (slot_run sl a) w).
Proof. intros Hc Hs. rewrite run_emit, Hs by exact Hc. apply proc_of_guard. Qed.

Lemma dispatch_handle_wired (e : Event) (w : Window) :
  wiring w = init_wiring -> proc_of (run (dispatch e) w) = proc_of (run (handle e) w).
Proof.
  intros H. destruct e; cbn [dispatch handle].
  - apply proc_of_bind; [apply keeps_update; reflexivity|].
    intros [] w' H'. rewrite H in H'.
    apply (proc_of_emit_single timeChanged (ATime t) Slot_editTimeFunc); [exact (wiring_conns _ H') | reflexivity].
  - apply proc_of_bind; [unfold btn_toggle; apply keeps_update; reflexivity|].
    intros [] w' H'. rewrite H in H'. rewrite !run_bind, !run_get.
    apply (proc_of_emit_single clicked (AChecked _) Slot_startStop); [exact (wiring_conns _ H') | reflexivity].
  - apply (proc_of_emit_single timeout ANone Slot_timerFunc); [exact (wiring_conns _ H) | reflexivity].
  - reflexivity.
  - unfold trigger. injection H as Hc Hm Ha _ _ _ _ Htc _.
    rewrite run_bind, run_get. unfold tray_entry, action_has_text.
    rewrite Htc, Hm, Ha. cbn -[emit]. rewrite run_emit by exact Hc. cbn.
    unfold guard, show_action_triggered, self_show, tray_hide, tray_setVisible. py_exec. reflexivity.
  - unfold trigger. injection H as Hc Hm Ha _ _ _ _ Htc _.
    rewrite run_bind, run_get. unfold tray_entry, action_has_text.
    rewrite Htc, Hm, Ha. cbn -[emit]. rewrite run_emit by exact Hc. cbn.
    unfold guard, quit_action_triggered. py_exec. reflexivity.
Qed.

(** C4: on every reachable state, delivering an event the way Qt does it
    (the toolkit's own effect, then the slots the connection table lists
    for the signal, in connection order; the menu entry found in the
    tray's context menu; input only to widgets of the central widget) on
    a desktop with a notification area gives the same next process as
    the dispatch of [EventLoop]. *)
Theorem qt_dispatch_equiv (e : Event) (w : Window) :
  reachable (Running w) -> step_qt true e w = step_fn e w.
Proof.
  intros R. pose proof (reachable_wiring w R) as Hw.
  rewrite step_fn_proc_of. unfold step_qt. rewrite (deliverable_qt_wired w e Hw).
  destruct (deliverable w e); [|reflexivity].
  rewrite (dispatch_handle_wired e w Hw). reflexivity.
Qed.

Lemma qt_dispatch_equiv_witness :
  reachable (Running w_run5) /\ step_qt true Timeout w_run5 = step_fn Timeout w_run5.
Proof. split; [exact reachable_w_run5 | apply qt_dispatch_equiv; exact reachable_w_run5]. Defined.

(** C8: the constructor's wiring: the six [connect] calls in source order
    (lines 76-78 then 41-43), one menu object holding "Show" then "Exit"
    that is both [self.tray_menu] and the tray's context menu (attached
    before the actions were added), the tray image [sources/icon.png],
    and a central widget stacking label, editor and button. *)
Theorem window_init_wiring : wiring window_init = init_wiring.
Proof. vm_compute. reflexivity. Qed.

(** C7: in every reachable state each signal reaches exactly the slots the
    constructor connected, once each: no handler connects or disconnects
    anything, and the tray menu's entries stay bound to the actions in
    [self.show_action] and [self.quit_action]. *)
Theorem reachable_signal_slots (w : Window) :
  reachable (Running w) ->
  slots_for timeChanged (conns w) = [Slot_editTimeFunc] /\
  slots_for timeout (conns w) = [Slot_timerFunc] /\
  slots_for clicked (conns w) = [Slot_startStop] /\
  (exists a, show_action w = Some a /\ tray_entry w "Show" = Some a /\
             slots_for (triggered a) (conns w) = [Slot_show; Slot_tray_hide]) /\
  (exists a, quit_action w = Some a /\ tray_entry w "Exit" = Some a /\
             slots_for (triggered a) (conns w) = [Slot_sys_exit]).
Proof.
  intros R. pose proof (reachable_wiring w R) as H.
  injection H as Hc Hm Ha _ _ Hs Hq Htc _.
  unfold tray_entry, action_has_text. rewrite Hc, Hm, Ha, Hs, Hq, Htc.
  repeat split; [exists 1 | exists 2]; repeat split.
Qed.

Lemma reachable_signal_slots_witness :
  reachable (Running w_zero) /\ slots_for timeout (conns w_zero) = [Slot_timerFunc].
Proof.
  split; [exact reachable_w_zero|]. apply (reachable_signal_slots w_zero reachable_w_zero).
Defined.

(** A hidden window whose timer is stopped receives nothing on a desktop
    without a notification area: it takes no input while hidden, a
    stopped timer does not fire, the tray menu cannot be opened. *)
Lemma hidden_stopped_no_event (w : Window) (e : Event) :
  visible w = false -> tm_active (timer w) = false -> step_qt false e w = None.
Proof. intros Hv Ha. unfold step_qt. destruct e; cbn [deliverable_qt]; rewrite ?Hv, ?Ha; reflexivity. Qed.

(** C22: on a desktop without a notification area, closing the window
    while no countdown runs loses the process: [closeEvent] ignores the
    close (the process keeps running) and hides the window, relying on
    a tray icon that is never on screen, so no event can be delivered
    any more: the window never comes back and the process never exits. *)
Theorem closed_without_tray_stuck (w : Window) :
  visible w = true -> tm_active (timer w) = false ->
  exists w', step_qt false CloseRequested w = Some (Running w') /\
             (forall e, step_qt false e w' = None).
Proof.
  intros Hv Ha. unfold step_qt at 1. cbn [deliverable_qt dispatch]. rewrite Hv.
  rewrite run_bind, run_closeEvent. cbn beta iota. rewrite run_ret.
  eexists. split; [reflexivity|]. intros e. apply hidden_stopped_no_event; [reflexivity | exact Ha].
Qed.

Lemma closed_without_tray_stuck_witness :
  visible window_init = true /\ tm_active (timer window_init) = false /\
  exists w', step_qt false CloseRequested window_init = Some (Running w') /\
             (forall e, step_qt false e w' = None).
Proof.
  assert (Hv : visible window_init = true) by (vm_compute; reflexivity).
  assert (Ha : tm_active (timer window_init) = false) by (vm_compute; reflexivity).
  split; [exact Hv|]. split; [exact Ha|]. exact (closed_without_tray_stuck window_init Hv Ha).
Defined.
