(* ===== verification/Invariant.v ===== *)
(** The invariant of every reachable state of the timer, proved by
    induction on reachability: the widgets agree with the run state, the
    window and the tray icon alternate, the configured duration and the
    counter are set together and bounded, and the label shows the
    counter.  Also: no handler lets an [AttributeError] escape. *)

From Stdlib Require Import String ZArith Bool List Lia.
From S2P Require Import Prelude PyMonad PyFormat Qt Window EventLoop.
Import ListNotations.

Open Scope string_scope.
Open Scope Z_scope.

(** The number the label shows: the counter, or [0] before any edit
    (the label is created with the text ["00:00"]). *)
Definition counter_or_zero (w : Window) : Z :=
  match counter w with Some c => c | None => 0 end.

Record inv (w : Window) : Prop := {
  inv_checked : btn_checked (start_stop_btn w) = tm_active (timer w);
  inv_checkable : btn_checkable (start_stop_btn w) = true;
  inv_enabled : te_enabled (edit_time w) = negb (tm_active (timer w));
  inv_text : btn_text (start_stop_btn w) = if tm_active (timer w) then "stop" else "start";
  inv_interval : tm_active (timer w) = true -> tm_interval (timer w) = 1000;
  inv_tray : tray_visible (tray w) = negb (visible w);
  inv_editor : QTime_isValid (te_time (edit_time w)) = true;
  inv_config :
    (time w = None /\ counter w = None /\ old_count w = None) \/
    (time w = Some (te_time (edit_time w)) /\
     old_count w = Some (time_in_seconds (te_time (edit_time w))) /\
     exists c, counter w = Some c /\ 0 <= c <= time_in_seconds (te_time (edit_time w)));
  inv_label : timer_lbl w = mmss (counter_or_zero w) }.

(** Uses the equations on the attributes of the start state, in the goal. *)
Ltac use_fields :=
  repeat match goal with H : ?f ?x = _ |- context [?f ?x] => rewrite H end.

(** Closes the invariant's conjuncts that follow from the widget calls. *)
Ltac inv_widgets :=
  do 2 (try unfold counter_or_zero, QPushButton_toggle; cbn; use_fields); cbn;
  try reflexivity; try assumption; try (intros; discriminate); try (intros; auto; fail).

(** Closes the [inv_config] conjunct of a state whose duration is set. *)
Ltac config_set := right; repeat split; eexists; split; [reflexivity|lia].

Lemma time_in_seconds_range (t : QTime) :
  QTime_isValid t = true -> 0 <= time_in_seconds t <= 3599.
Proof. intros H. destruct (QTime_minute_second_range t H). unfold time_in_seconds. lia. Qed.

#[export] Hint Resolve time_in_seconds_range : timer.

Lemma inv_init : inv window_init.
Proof. constructor; try reflexivity; try discriminate. left; auto. Qed.

(** [counter] and [old_count] of a state of the invariant. *)
Lemma inv_counter_set (w : Window) (c : Z) :
  inv w -> counter w = Some c ->
  time w = Some (te_time (edit_time w)) /\
  old_count w = Some (time_in_seconds (te_time (edit_time w))) /\
  0 <= c <= time_in_seconds (te_time (edit_time w)).
Proof.
  intros I Hc. destruct (inv_config _ I) as [(_ & H & _) | (H1 & H2 & c' & H3 & H4)]; [congruence|].
  rewrite Hc in H3. injection H3 as <-. auto.
Qed.

Lemma inv_counter_unset (w : Window) :
  inv w -> counter w = None -> time w = None /\ old_count w = None.
Proof.
  intros I Hc. destruct (inv_config _ I) as [(H1 & _ & H3) | (_ & _ & c' & H & _)]; [auto|congruence].
Qed.

Lemma inv_old_count_set (w : Window) (o : Z) :
  inv w -> old_count w = Some o -> exists c, counter w = Some c /\ 0 <= c <= o.
Proof.
  intros I Ho. destruct (inv_config _ I) as [(_ & _ & H) | (_ & H & c & H3 & H4)]; [congruence|].
  rewrite Ho in H. injection H as ->. eauto.
Qed.

Lemma inv_counter_range (w : Window) : inv w -> 0 <= counter_or_zero w <= 3599.
Proof.
  intros I. unfold counter_or_zero. destruct (counter w) as [c|] eqn:Hc; [|lia].
  destruct (inv_counter_set w c I Hc) as (_ & _ & Hr).
  pose proof (time_in_seconds_range _ (inv_editor w I)). lia.
Qed.

(** Each branch of [timerFunc] on a running timer keeps the invariant. *)
Lemma timerFunc_inv (w : Window) :
  inv w -> tm_active (timer w) = true ->
  let '(r, w') := run timerFunc w in r = inr tt /\ inv w'.
Proof.
  intros I Ha. pose proof I as [H1 H2 H3 H4 H5 H6 H7 H8 H9].
  destruct (counter w) as [c|] eqn:Hc.
  - destruct (inv_counter_set w c I Hc) as (Ht & Ho & Hr).
    pose proof (time_in_seconds_range _ H7).
    destruct (Z.lt_total c 1) as [Hlt | [-> | Hgt]].
    + pose proof (run_timerFunc_overrun w c _ Hc ltac:(lia) Ho) as P.
      destruct (run timerFunc w) as [r w'].
      destruct P as (-> & P1 & P2 & P3 & P4 & P5 & _ & P7 & P8 & P9 & P10).
      split; [reflexivity|]. constructor; inv_widgets.
      config_set.
    + pose proof (run_timerFunc_complete w _ Hc Ho) as P.
      destruct (run timerFunc w) as [r w'].
      destruct P as (-> & P1 & P2 & P3 & P4 & P5 & _ & P7 & P8 & P9 & P10).
      split; [reflexivity|]. constructor; inv_widgets.
      config_set.
    + pose proof (run_timerFunc_running w c Hc ltac:(lia)) as P.
      destruct (run timerFunc w) as [r w'].
      destruct P as (-> & P1 & P2 & P3 & P4 & P5 & _ & P7 & P8 & P9 & P10).
      split; [reflexivity|]. constructor; inv_widgets.
      config_set.
  - destruct (inv_counter_unset w I Hc) as (Ht & Ho).
    pose proof (run_timerFunc_unset w Hc) as P.
    destruct (run timerFunc w) as [r w'].
    destruct P as (-> & P1 & P2 & P3 & P4 & _ & P6 & P7 & P8 & P9 & P10).
    split; [reflexivity|]. constructor; inv_widgets.
Qed.

Lemma QTimeEdit_accepts_spec (e : QTimeEdit) (t : QTime) :
  QTimeEdit_accepts e t = true -> te_enabled e = true /\ QTime_isValid t = true.
Proof.
  unfold QTimeEdit_accepts. intros H. repeat (apply andb_prop in H as [H ?]). auto.
Qed.

(** An edit of the duration keeps the invariant. *)
Lemma edit_inv (w : Window) (t : QTime) :
  inv w -> deliverable w (TimeChanged t) = true ->
  let '(r, w') := run (handle (TimeChanged t)) w in r = inr tt /\ inv w'.
Proof.
  intros I Hd. pose proof I as [H1 H2 H3 H4 H5 H6 H7 H8 H9].
  apply andb_prop in Hd as [_ Hd]. apply QTimeEdit_accepts_spec in Hd as [Hen Hv].
  cbn [handle]. rewrite run_bind, run_update. cbn beta iota.
  pose proof (run_editTimeFunc t (set_edit_time (QTimeEdit_setTime t (edit_time w)) w)) as P.
  destruct (run (editTimeFunc t) _) as [r w'].
  destruct P as (-> & P1 & P2 & P3 & P4 & P5 & P6 & P7 & P8 & P9 & _).
  split; [reflexivity|]. cbn in P5, P6, P7, P8, P9.
  pose proof (time_in_seconds_range _ Hv). constructor; inv_widgets. config_set.
Qed.

(** A click flips the button and runs [startStop] with the new state. *)
Lemma click_spec (w : Window) :
  inv w ->
  run (handle Clicked) w =
  run (startStop (negb (tm_active (timer w))))
      (set_start_stop_btn (QPushButton_toggle (start_stop_btn w)) w).
Proof.
  intros I. cbn [handle]. unfold btn_toggle. rewrite run_bind, run_update. cbn beta iota.
  rewrite run_bind, run_get. cbn beta iota. unfold QPushButton_toggle. win_red.
  rewrite (inv_checkable _ I), (inv_checked _ I). reflexivity.
Qed.

(** A click keeps the invariant: it starts a stopped timer and stops a
    running one. *)
Lemma click_inv (w : Window) :
  inv w -> let '(r, w') := run (handle Clicked) w in r = inr tt /\ inv w'.
Proof.
  intros I. pose proof I as [H1 H2 H3 H4 H5 H6 H7 H8 H9].
  cbn [handle]. unfold btn_toggle. rewrite run_bind, run_update. cbn beta iota.
  rewrite run_bind, run_get. cbn beta iota. unfold QPushButton_toggle. win_red. rewrite H2, H1.
  destruct (tm_active (timer w)) eqn:Ha; cbn [negb];
    [rewrite run_startStop_false | rewrite run_startStop_true]; split; try reflexivity;
    constructor; inv_widgets.
Qed.

(** Closing the window and the tray's "Show" keep the invariant. *)
Lemma close_inv (w : Window) :
  inv w -> let '(r, w') := run (handle CloseRequested) w in r = inr tt /\ inv w'.
Proof.
  intros I. pose proof I as [H1 H2 H3 H4 H5 H6 H7 H8 H9].
  cbn [handle]. rewrite run_bind, run_closeEvent. cbn beta iota. rewrite run_ret.
  split; [reflexivity|]. constructor; inv_widgets.
Qed.

Lemma show_inv (w : Window) :
  inv w -> let '(r, w') := run (handle ShowTriggered) w in r = inr tt /\ inv w'.
Proof.
  intros I. pose proof I as [H1 H2 H3 H4 H5 H6 H7 H8 H9].
  cbn [handle]. rewrite run_show_action.
  split; [reflexivity|]. constructor; inv_widgets.
Qed.

(** Every event the toolkit delivers in a state of the invariant returns
    normally, or raises [SystemExit] when it is the tray's "Exit", and
    leaves a state of the invariant. *)
Lemma handle_inv (e : Event) (w : Window) :
  inv w -> deliverable w e = true ->
  let '(r, w') := run (handle e) w in
  (r = inr tt \/ (r = inl SystemExit /\ e = ExitTriggered)) /\ inv w'.
Proof.
  intros I Hd. destruct e as [t| | | | |].
  - pose proof (edit_inv w t I Hd) as P. destruct (run _ w) as [r w']. intuition.
  - pose proof (click_inv w I) as P. destruct (run _ w) as [r w']. intuition.
  - pose proof (timerFunc_inv w I Hd) as P. cbn [handle]. destruct (run _ w) as [r w']. intuition.
  - pose proof (close_inv w I) as P. destruct (run _ w) as [r w']. intuition.
  - pose proof (show_inv w I) as P. destruct (run _ w) as [r w']. intuition.
  - cbn [handle]. rewrite run_quit_action. auto.
Qed.

Lemma step_fn_inv (e : Event) (w w' : Window) :
  inv w -> step_fn e w = Some (Running w') -> inv w'.
Proof.
  unfold step_fn. intros I H. destruct (deliverable w e) eqn:Hd; [|discriminate].
  pose proof (handle_inv e w I Hd) as P. destruct (run (handle e) w) as [r w1].
  destruct P as [[-> | [-> _]] I']; congruence.
Qed.

(** ** The invariant of reachable states *)

(** Every reachable state satisfies the invariant. *)
Theorem reachable_inv (w : Window) : reachable (Running w) -> inv w.
Proof.
  intros R. remember (Running w) as p eqn:Ep. revert w Ep.
  induction R as [|p e p' R IH S]; intros w Ep.
  - injection Ep as <-. exact inv_init.
  - subst p'. inversion S as [w0 e0 p0 Hs]; subst. eapply step_fn_inv; eauto.
Qed.

(** C3: in every reachable state the widgets agree with the timer: the
    button is checked, reads "stop" and the editor is locked exactly
    while the timer runs, at 1000 ms; the tray icon is shown exactly
    while the window is hidden; the counter and the configured duration
    are set together (from the editor's current value) or not at all. *)
Theorem reachable_widgets_consistent (w : Window) :
  reachable (Running w) ->
  btn_checked (start_stop_btn w) = tm_active (timer w) /\
  te_enabled (edit_time w) = negb (tm_active (timer w)) /\
  btn_text (start_stop_btn w) = (if tm_active (timer w) then "stop" else "start") /\
  (tm_active (timer w) = true -> tm_interval (timer w) = 1000) /\
  tray_visible (tray w) = negb (visible w) /\
  (counter w = None <-> old_count w = None) /\
  (old_count w = None \/ old_count w = Some (time_in_seconds (te_time (edit_time w)))).
Proof.
  intros R. destruct (reachable_inv w R) as [H1 H2 H3 H4 H5 H6 H7 H8 H9].
  repeat split; auto.
  - destruct H8 as [(_ & _ & ->) | (_ & _ & c & -> & _)]; [auto | discriminate].
  - destruct H8 as [(_ & -> & _) | (_ & -> & _)]; [auto | discriminate].
  - destruct H8 as [(_ & _ & ->) | (_ & -> & _)]; auto.
Qed.

Lemma reachable_widgets_consistent_witness :
  reachable (Running w_run5) /\
  btn_checked (start_stop_btn w_run5) = tm_active (timer w_run5) /\
  btn_text (start_stop_btn w_run5) = "stop".
Proof.
  destruct (reachable_widgets_consistent w_run5 reachable_w_run5) as (P1 & _ & P3 & _).
  split; [exact reachable_w_run5|]. split; [exact P1|].
  rewrite P3. vm_compute. reflexivity.
Defined.


(** C12: in every reachable state the counter lies in [0, 3599] (59:59,
    the largest time the editor produces) and the label has the five
    characters of ["MM:SS"]. *)
Theorem reachable_counter_bounds (w : Window) :
  reachable (Running w) ->
  0 <= counter_or_zero w <= 3599 /\ String.length (timer_lbl w) = 5%nat.
Proof.
  intros R. pose proof (reachable_inv w R) as I. pose proof (inv_counter_range w I).
  rewrite (inv_label w I). split; [assumption | apply mmss_length; lia].
Qed.

Lemma reachable_counter_bounds_witness :
  reachable (Running w_run5) /\ 0 <= counter_or_zero w_run5 <= 3599 /\
  String.length (timer_lbl w_run5) = 5%nat.
Proof. split; [exact reachable_w_run5 | exact (reachable_counter_bounds w_run5 reachable_w_run5)]. Defined.


(** C13: in every reachable state the label reads back as the counter
    (or 0 before any duration was entered). *)
Theorem reachable_label_roundtrip (w : Window) :
  reachable (Running w) -> parse_mmss (timer_lbl w) = Some (counter_or_zero w).
Proof.
  intros R. pose proof (reachable_inv w R) as I. pose proof (inv_counter_range w I).
  rewrite (inv_label w I). apply mmss_parse. lia.
Qed.

Lemma reachable_label_roundtrip_witness :
  reachable (Running w_run5) /\ parse_mmss (timer_lbl w_run5) = Some 5.
Proof.
  split; [exact reachable_w_run5|]. rewrite (reachable_label_roundtrip w_run5 reachable_w_run5).
  vm_compute. reflexivity.
Defined.


(** C6: no handler lets an [AttributeError] out to the event loop in a
    reachable state: the only one the code can raise (reading a missing
    [self.counter]) is caught by [timerFunc]'s [except]. *)
Theorem no_attribute_error_escapes (w : Window) (e : Event) (a : string) :
  reachable (Running w) -> deliverable w e = true ->
  fst (run (handle e) w) <> inl (AttributeError a).
Proof.
  intros R Hd. pose proof (handle_inv e w (reachable_inv w R) Hd) as P.
  destruct (run (handle e) w) as [r w']. cbn [fst]. destruct P as [[-> | [-> _]] _]; discriminate.
Qed.

Lemma no_attribute_error_escapes_witness :
  reachable (Running w_run_unset) /\ deliverable w_run_unset Timeout = true /\
  fst (run (handle Timeout) w_run_unset) <> inl (AttributeError "counter").
Proof.
  assert (D : deliverable w_run_unset Timeout = true) by (vm_compute; reflexivity).
  split; [exact reachable_w_run_unset|]. split; [exact D|].
  exact (no_attribute_error_escapes w_run_unset Timeout "counter" reachable_w_run_unset D).
Defined.


(** C14: closing the main window never ends the process nor touches the
    countdown: the window is hidden, the tray icon shown, and the timer,
    the counter and the configured duration are as before. *)
Theorem close_keeps_countdown (w : Window) (p : Proc) :
  inv w -> step (Running w) CloseRequested p ->
  exists w', p = Running w' /\ timer w' = timer w /\ counter w' = counter w /\
    old_count w' = old_count w /\ visible w' = false /\ tray_visible (tray w') = true.
Proof.
  intros I S. inversion S as [w0 e0 p0 E]; subst. unfold step_fn in E.
  destruct (deliverable w CloseRequested); [|discriminate]. cbn [handle] in E.
  rewrite run_bind, run_closeEvent in E. cbn beta iota in E. rewrite run_ret in E.
  injection E as <-. eexists. split; [reflexivity|]. win_red. repeat split.
Qed.

Lemma close_keeps_countdown_witness :
  inv w_run5 /\ step (Running w_run5) CloseRequested (Running (snd (run (handle CloseRequested) w_run5))) /\
  exists w', Running (snd (run (handle CloseRequested) w_run5)) = Running w' /\
    timer w' = timer w_run5 /\ counter w' = counter w_run5 /\ old_count w' = old_count w_run5 /\
    visible w' = false /\ tray_visible (tray w') = true.
Proof.
  assert (I : inv w_run5) by exact (reachable_inv _ reachable_w_run5).
  assert (S : step (Running w_run5) CloseRequested (Running (snd (run (handle CloseRequested) w_run5))))
    by (constructor; vm_compute; reflexivity).
  split; [exact I|]. split; [exact S|]. exact (close_keeps_countdown w_run5 _ I S).
Defined.


(** C16: the process ends only through the tray menu's "Exit". *)
Theorem exit_only_from_tray (w : Window) (e : Event) :
  inv w -> step (Running w) e Exited -> e = ExitTriggered.
Proof.
  intros I S. inversion S as [w0 e0 p0 E]; subst. unfold step_fn in E.
  destruct (deliverable w e) eqn:Hd; [|discriminate].
  pose proof (handle_inv e w I Hd) as P. destruct (run (handle e) w) as [r w'].
  destruct P as [[-> | [_ He]] _]; [discriminate | exact He].
Qed.

Lemma exit_only_from_tray_witness :
  inv w_tray /\ step (Running w_tray) ExitTriggered Exited /\ ExitTriggered = ExitTriggered.
Proof.
  assert (I : inv w_tray) by exact (reachable_inv _ reachable_w_tray).
  assert (S : step (Running w_tray) ExitTriggered Exited) by (constructor; vm_compute; reflexivity).
  split; [exact I|]. split; [exact S | exact (exit_only_from_tray w_tray ExitTriggered I S)].
Defined.


(** Closing a shown window: hidden, tray icon shown, nothing else changed. *)
Lemma step_fn_close (w : Window) :
  visible w = true ->
  step_fn CloseRequested w = Some (Running (set_visible false (set_tray (QSystemTrayIcon_setVisible true (tray w)) w))).
Proof.
  intros Hv. unfold step_fn. cbn [deliverable]. rewrite Hv. cbn [handle].
  rewrite run_bind, run_closeEvent. cbn beta iota. rewrite run_ret. reflexivity.
Qed.

(** The tray's "Show" with the tray icon shown. *)
Lemma step_fn_show (w : Window) :
  tray_visible (tray w) = true ->
  step_fn ShowTriggered w = Some (Running (set_tray (QSystemTrayIcon_setVisible false (tray w)) (set_visible true w))).
Proof. intros Ht. unfold step_fn. cbn [deliverable]. rewrite Ht. cbn [handle]. rewrite run_show_action. reflexivity. Qed.

(** C21: minimising to the tray and restoring are inverse: from a state of
    the invariant with the window shown, closing it and choosing "Show"
    gives back exactly the same state; from the tray, "Show" then closing
    does too.  The countdown, the label and every widget are as before. *)
Theorem tray_roundtrip (w : Window) :
  inv w ->
  (visible w = true -> run_events [CloseRequested; ShowTriggered] (Running w) = Running w) /\
  (visible w = false -> run_events [ShowTriggered; CloseRequested] (Running w) = Running w).
Proof.
  intros I. pose proof (inv_tray _ I) as Ht.
  split; intros Hv; rewrite Hv in Ht; cbn [run_events].
  - rewrite (step_fn_close w Hv), step_fn_show by reflexivity.
    destruct w as [v ? ? ? ? [tv ? ?] ? ? ? ? ? ? ? ? ? ? ? ? ? ? ? ? ? ? ? ? ?].
    cbn in Hv, Ht |- *. subst. reflexivity.
  - rewrite (step_fn_show w Ht), step_fn_close by reflexivity.
    destruct w as [v ? ? ? ? [tv ? ?] ? ? ? ? ? ? ? ? ? ? ? ? ? ? ? ? ? ? ? ? ?].
    cbn in Hv, Ht |- *. subst. reflexivity.
Qed.

Lemma tray_roundtrip_witness :
  inv w_run5 /\ visible w_run5 = true /\
  run_events [CloseRequested; ShowTriggered] (Running w_run5) = Running w_run5.
Proof.
  assert (I : inv w_run5) by exact (reachable_inv _ reachable_w_run5).
  assert (V : visible w_run5 = true) by (vm_compute; reflexivity).
  split; [exact I|]. split; [exact V|]. exact (proj1 (tray_roundtrip w_run5 I) V).
Defined.
