(* ===== verification/Countdown.v ===== *)
(** The countdown as a function of the number of timer ticks: how a
    running countdown proceeds, that it stops exactly when the counter
    reaches zero, with one alert and the counter reset, that every
    started countdown stops, and the start/stop, misuse and tray
    scenarios of the spec. *)

From Stdlib Require Import String ZArith Bool List Lia.
From S2P Require Import Prelude PyMonad PyFormat Qt Window EventLoop Invariant.
Import ListNotations.

Open Scope string_scope.
Open Scope Z_scope.

(** The number of ticks a running countdown still takes: the counter
    when it is positive, one tick otherwise (the [except] branch or the
    [elif counter < 0] branch stop at once). *)
Definition countdown_len (w : Window) : nat :=
  match counter w with
  | Some c => if 1 <=? c then Z.to_nat c else 1%nat
  | None => 1%nat
  end.

(** A tick of a running timer runs [timerFunc]. *)
Lemma tick_active (w : Window) :
  inv w -> tm_active (timer w) = true -> tick w = snd (run timerFunc w).
Proof.
  intros I Ha. unfold tick, step_fn. cbn [deliverable handle]. rewrite Ha.
  pose proof (timerFunc_inv w I Ha) as P. destruct (run timerFunc w) as [r w'].
  destruct P as [-> _]. reflexivity.
Qed.

Lemma tick_inv (w : Window) : inv w -> inv (tick w).
Proof.
  intros I. destruct (tm_active (timer w)) eqn:Ha.
  - rewrite (tick_active w I Ha). pose proof (timerFunc_inv w I Ha) as P.
    destruct (run timerFunc w) as [r w']. apply P.
  - unfold tick, step_fn. cbn [deliverable]. rewrite Ha. exact I.
Qed.

Lemma step_fn_click (w : Window) :
  inv w -> visible w = true ->
  step_fn Clicked w =
  Some (Running (snd (run (startStop (negb (tm_active (timer w))))
      (set_start_stop_btn (QPushButton_toggle (start_stop_btn w)) w)))).
Proof.
  intros I Hv. unfold step_fn. cbn [deliverable]. rewrite Hv, (click_spec w I).
  destruct (tm_active (timer w)); cbn [negb]; [rewrite run_startStop_false | rewrite run_startStop_true];
  reflexivity.
Qed.

Lemma step_fn_timeout (w : Window) :
  inv w -> tm_active (timer w) = true -> step_fn Timeout w = Some (Running (tick w)).
Proof.
  intros I Ha. rewrite (tick_active w I Ha). unfold step_fn. cbn [deliverable handle]. rewrite Ha.
  pose proof (timerFunc_inv w I Ha) as P. destruct (run timerFunc w) as [r w'].
  destruct P as [-> _]. reflexivity.
Qed.

(** Ticks of a stopped timer change nothing: [QTimer] does not fire. *)
Lemma ticks_stopped (n : nat) (w : Window) :
  tm_active (timer w) = false -> ticks n w = w.
Proof.
  intros Ha. induction n as [|n IH]; [reflexivity|].
  unfold ticks in *. simpl. rewrite IH. unfold tick, step_fn. cbn [deliverable]. rewrite Ha. reflexivity.
Qed.

(** Before the counter reaches one, each tick decrements it and changes
    nothing else that matters: the timer keeps running, nothing plays. *)
Lemma ticks_running (k : nat) (w : Window) (c : Z) :
  inv w -> tm_active (timer w) = true -> counter w = Some c -> Z.of_nat k < c ->
  let w' := ticks k w in
  inv w' /\ tm_active (timer w') = true /\ counter w' = Some (c - Z.of_nat k) /\
  audio_log w' = audio_log w /\ old_count w' = old_count w.
Proof.
  intros I Ha Hc. induction k as [|k IH]; intros Hk.
  - cbn. rewrite Z.sub_0_r. auto.
  - destruct IH as (I' & Ha' & Hc' & Hl' & Ho'); [lia|].
    change (ticks (S k) w) with (tick (ticks k w)).
    rewrite (tick_active _ I' Ha').
    pose proof (run_timerFunc_running (ticks k w) _ Hc' ltac:(lia)) as P.
    pose proof (timerFunc_inv _ I' Ha') as Q.
    destruct (run timerFunc (ticks k w)) as [r w']. cbn [snd].
    destruct P as (_ & P1 & _ & P3 & _ & _ & P6 & _ & _ & P9 & _).
    split; [apply Q|]. split; [rewrite P3; exact Ha'|].
    split; [rewrite P1; f_equal; lia|]. split; [rewrite P6; exact Hl' | rewrite P9; exact Ho'].
Qed.

(** The last tick of a countdown started on [c >= 1] seconds. *)
Lemma ticks_to_zero (w : Window) (c : Z) :
  inv w -> tm_active (timer w) = true -> counter w = Some c -> 1 <= c ->
  let w' := ticks (Z.to_nat c) w in
  tm_active (timer w') = false /\ counter w' = old_count w /\
  audio_log w' = (audio_log w ++ ["sources/ding.wav"])%list /\
  visible w' = true /\ tray_visible (tray w') = false /\ te_enabled (edit_time w') = true.
Proof.
  intros I Ha Hc H1. destruct (inv_counter_set w c I Hc) as (_ & Ho & _).
  replace (Z.to_nat c) with (S (Z.to_nat (c - 1))) by lia.
  destruct (ticks_running (Z.to_nat (c - 1)) w c I Ha Hc ltac:(lia)) as (I' & A & C & L & O).
  change (ticks (S _) w) with (tick (ticks (Z.to_nat (c - 1)) w)).
  rewrite (tick_active _ I' A). rewrite Ho in O |- *.
  replace (c - Z.of_nat (Z.to_nat (c - 1))) with 1 in C by lia.
  pose proof (run_timerFunc_complete _ _ C O) as P.
  destruct (run timerFunc _) as [r w']. cbn [snd].
  destruct P as (_ & P1 & _ & P3 & _ & P5 & P6 & P7 & P8 & _).
  rewrite P3, P1, P6, P7, P8, P5, L. cbn. repeat split.
Qed.

(** C2: a countdown started on [c >= 1] seconds runs through [c - 1]
    ticks without stopping or sounding, and the [c]-th tick stops it:
    timer stopped, counter back to the configured duration, the alert
    played exactly once, the window shown, the tray icon hidden and the
    editor enabled again. *)
Theorem countdown_completes (w : Window) (c : Z) :
  inv w -> tm_active (timer w) = true -> counter w = Some c -> 1 <= c ->
  (forall k, (k < Z.to_nat c)%nat ->
     tm_active (timer (ticks k w)) = true /\ audio_log (ticks k w) = audio_log w) /\
  (let w' := ticks (Z.to_nat c) w in
   tm_active (timer w') = false /\ counter w' = old_count w /\
   audio_log w' = (audio_log w ++ ["sources/ding.wav"])%list /\
   visible w' = true /\ tray_visible (tray w') = false /\ te_enabled (edit_time w') = true).
Proof.
  intros I Ha Hc H1. split; [|exact (ticks_to_zero w c I Ha Hc H1)].
  intros k Hk. destruct (ticks_running k w c I Ha Hc ltac:(lia)) as (_ & A & _ & L & _). auto.
Qed.

Lemma countdown_completes_witness :
  inv w_run5 /\ tm_active (timer w_run5) = true /\ counter w_run5 = Some 5 /\ 1 <= 5 /\
  tm_active (timer (ticks 5 w_run5)) = false /\ counter (ticks 5 w_run5) = old_count w_run5.
Proof.
  assert (I : inv w_run5) by exact (reachable_inv _ reachable_w_run5).
  assert (A : tm_active (timer w_run5) = true) by (vm_compute; reflexivity).
  assert (C : counter w_run5 = Some 5) by (vm_compute; reflexivity).
  assert (H1 : 1 <= 5) by lia.
  destruct (countdown_completes w_run5 5 I A C H1) as [_ [P1 [P2 _]]].
  split; [exact I|]. split; [exact A|]. split; [exact C|]. split; [exact H1|].
  split; [exact P1 | exact P2].
Defined.


(** C5: every running countdown stops: after [countdown_len w] ticks the
    timer is stopped, whatever the counter (unset, zero or positive). *)
Theorem countdown_terminates (w : Window) :
  inv w -> tm_active (timer (ticks (countdown_len w) w)) = false.
Proof.
  intros I. destruct (tm_active (timer w)) eqn:Ha; [|now rewrite ticks_stopped].
  unfold countdown_len. destruct (counter w) as [c|] eqn:Hc.
  - destruct (Z.leb_spec 1 c) as [H1|H1].
    + exact (proj1 (ticks_to_zero w c I Ha Hc H1)).
    + destruct (inv_counter_set w c I Hc) as (_ & Ho & _).
      change (ticks 1 w) with (tick w). rewrite (tick_active _ I Ha).
      pose proof (run_timerFunc_overrun w c _ Hc ltac:(lia) Ho) as P.
      destruct (run timerFunc w) as [r w']. destruct P as (_ & _ & _ & P3 & _). cbn. rewrite P3. reflexivity.
  - change (ticks 1 w) with (tick w). rewrite (tick_active _ I Ha).
    pose proof (run_timerFunc_unset w Hc) as P.
    destruct (run timerFunc w) as [r w']. destruct P as (_ & _ & P2 & _). cbn. rewrite P2. reflexivity.
Qed.

Lemma countdown_terminates_witness :
  inv w_run_unset /\ tm_active (timer (ticks (countdown_len w_run_unset) w_run_unset)) = false.
Proof.
  assert (I : inv w_run_unset) by exact (reachable_inv _ reachable_w_run_unset).
  split; [exact I | exact (countdown_terminates w_run_unset I)].
Defined.


(** ** Scenarios of the spec *)

(** C15: starting and at once stopping leaves the countdown where it was:
    the timer is stopped, the counter and the label unchanged, nothing
    played, the editor enabled again. *)
Theorem start_then_stop (w : Window) :
  inv w -> visible w = true -> tm_active (timer w) = false ->
  exists w', run_events [Clicked; Clicked] (Running w) = Running w' /\
    tm_active (timer w') = false /\ counter w' = counter w /\ timer_lbl w' = timer_lbl w /\
    audio_log w' = audio_log w /\ te_enabled (edit_time w') = true.
Proof.
  intros I Hv Ha. cbn [run_events]. rewrite (step_fn_click w I Hv), Ha. cbn [negb].
  rewrite run_startStop_true. cbn [snd]. set (w1 := set_edit_time _ _).
  assert (I1 : inv w1) by (apply (step_fn_inv Clicked w); [exact I|]; rewrite (step_fn_click w I Hv), Ha; reflexivity).
  rewrite (step_fn_click w1 I1 Hv). cbn [run_events]. subst w1. win_red. cbn [tm_active QTimer_start negb].
  rewrite run_startStop_false. cbn [snd]. eexists. split; [reflexivity|]. win_red. repeat split.
Qed.

Lemma start_then_stop_witness :
  inv w_set5 /\ visible w_set5 = true /\ tm_active (timer w_set5) = false /\
  exists w', run_events [Clicked; Clicked] (Running w_set5) = Running w' /\
    tm_active (timer w') = false /\ counter w' = counter w_set5 /\ timer_lbl w' = timer_lbl w_set5 /\
    audio_log w' = audio_log w_set5 /\ te_enabled (edit_time w') = true.
Proof.
  assert (I : inv w_set5) by exact (reachable_inv _ reachable_w_set5).
  assert (V : visible w_set5 = true) by (vm_compute; reflexivity).
  assert (A : tm_active (timer w_set5) = false) by (vm_compute; reflexivity).
  split; [exact I|]. split; [exact V|]. split; [exact A|]. exact (start_then_stop w_set5 I V A).
Defined.


(** A click on a stopped timer starts it and changes nothing else the
    countdown reads. *)
Lemma click_start (w : Window) :
  inv w -> visible w = true -> tm_active (timer w) = false ->
  exists w1, step_fn Clicked w = Some (Running w1) /\ inv w1 /\
    tm_active (timer w1) = true /\ counter w1 = counter w /\ old_count w1 = old_count w /\
    audio_log w1 = audio_log w /\ visible w1 = visible w /\ tray w1 = tray w.
Proof.
  intros I Hv Ha. rewrite (step_fn_click w I Hv), Ha. cbn [negb]. rewrite run_startStop_true.
  eexists. split; [reflexivity|]. split.
  - apply (step_fn_inv Clicked w); [exact I|]. rewrite (step_fn_click w I Hv), Ha. reflexivity.
  - cbn [snd]. win_red. repeat split.
Qed.

(** C10: starting with no duration ever entered and ticking once stops at
    once: the [AttributeError] is caught, the timer stops, the editor
    and the button are released and the alert plays; the counter stays
    unset. *)
Theorem start_without_duration (w : Window) :
  inv w -> visible w = true -> tm_active (timer w) = false -> counter w = None ->
  exists w', run_events [Clicked; Timeout] (Running w) = Running w' /\
    tm_active (timer w') = false /\ counter w' = None /\ te_enabled (edit_time w') = true /\
    btn_text (start_stop_btn w') = "start" /\
    audio_log w' = (audio_log w ++ ["sources/ding.wav"])%list.
Proof.
  intros I Hv Ha Hc. destruct (click_start w I Hv Ha) as (w1 & E & I1 & A1 & C1 & _ & L1 & _).
  cbn [run_events]. rewrite E, (step_fn_timeout w1 I1 A1), (tick_active w1 I1 A1).
  rewrite Hc in C1. pose proof (run_timerFunc_unset w1 C1) as P.
  destruct (run timerFunc w1) as [r w']. destruct P as (_ & P1 & P2 & P3 & P4 & P5 & _).
  exists w'. split; [reflexivity|]. rewrite P1, P2, P3, P4, P5, L1. repeat split.
Qed.

Lemma start_without_duration_witness :
  inv window_init /\ visible window_init = true /\ tm_active (timer window_init) = false /\
  counter window_init = None /\
  exists w', run_events [Clicked; Timeout] (Running window_init) = Running w' /\
    tm_active (timer w') = false /\ counter w' = None /\ te_enabled (edit_time w') = true /\
    btn_text (start_stop_btn w') = "start" /\
    audio_log w' = (audio_log window_init ++ ["sources/ding.wav"])%list.
Proof.
  assert (I : inv window_init) by exact (reachable_inv _ reach_init).
  assert (V : visible window_init = true) by reflexivity.
  assert (A : tm_active (timer window_init) = false) by reflexivity.
  assert (C : counter window_init = None) by reflexivity.
  split; [exact I|]. split; [exact V|]. split; [exact A|]. split; [exact C|].
  exact (start_without_duration window_init I V A C).
Defined.


(** C11: a countdown on a zero duration, started and then sent to the
    tray, ends on the first tick through the [elif counter < 0] branch:
    the alert plays and the counter is reset, but the window stays
    hidden and the tray icon shown. *)
Theorem zero_duration_stays_in_tray (w : Window) :
  inv w -> visible w = true -> tm_active (timer w) = false -> old_count w = Some 0 ->
  exists w', run_events [Clicked; CloseRequested; Timeout] (Running w) = Running w' /\
    tm_active (timer w') = false /\ counter w' = Some 0 /\
    audio_log w' = (audio_log w ++ ["sources/ding.wav"])%list /\
    visible w' = false /\ tray_visible (tray w') = true.
Proof.
  intros I Hv Ha Ho. destruct (click_start w I Hv Ha) as (w1 & E & I1 & A1 & C1 & O1 & L1 & V1 & _).
  destruct (inv_old_count_set w 0 I Ho) as (c & Hc & Hr). replace c with 0 in Hc by lia.
  cbn [run_events]. rewrite E. unfold step_fn at 1. cbn [deliverable handle]. rewrite V1, Hv.
  rewrite run_bind, run_closeEvent. cbn beta iota. rewrite run_ret.
  set (w2 := set_visible false _).
  assert (I2 : inv w2) by (pose proof (close_inv w1 I1) as P; cbn [handle] in P;
    rewrite run_bind, run_closeEvent in P; exact (proj2 P)).
  assert (A2 : tm_active (timer w2) = true) by exact A1.
  rewrite (step_fn_timeout w2 I2 A2), (tick_active w2 I2 A2).
  rewrite Hc in C1. rewrite Ho in O1.
  pose proof (run_timerFunc_overrun w2 0 _ C1 (Z.le_refl 0) O1) as P.
  destruct (run timerFunc w2) as [r w']. destruct P as (_ & P1 & _ & P3 & _ & _ & P6 & P7 & P8 & _).
  exists w'. split; [reflexivity|]. rewrite P1, P3, P6, P7, P8. subst w2. win_red.
  rewrite L1. cbn. repeat split.
Qed.

Lemma zero_duration_stays_in_tray_witness :
  inv w_zero /\ visible w_zero = true /\ tm_active (timer w_zero) = false /\ old_count w_zero = Some 0 /\
  exists w', run_events [Clicked; CloseRequested; Timeout] (Running w_zero) = Running w' /\
    tm_active (timer w') = false /\ counter w' = Some 0 /\
    audio_log w' = (audio_log w_zero ++ ["sources/ding.wav"])%list /\
    visible w' = false /\ tray_visible (tray w') = true.
Proof.
  assert (I : inv w_zero) by exact (reachable_inv _ reachable_w_zero).
  assert (V : visible w_zero = true) by (vm_compute; reflexivity).
  assert (A : tm_active (timer w_zero) = false) by (vm_compute; reflexivity).
  assert (O : old_count w_zero = Some 0) by (vm_compute; reflexivity).
  split; [exact I|]. split; [exact V|]. split; [exact A|]. split; [exact O|].
  exact (zero_duration_stays_in_tray w_zero I V A O).
Defined.


(** C9: an edit of the duration to [m:s] (which the toolkit only
    delivers while the timer is stopped) sets the counter and the
    configured duration to [m * 60 + s] and shows ['%02d:%02d' % (m, s)]. *)
Theorem edit_sets_duration (w : Window) (t : QTime) :
  inv w -> deliverable w (TimeChanged t) = true ->
  exists w', step_fn (TimeChanged t) w = Some (Running w') /\
    counter w' = Some (QTime_minute t * 60 + QTime_second t) /\ old_count w' = counter w' /\
    time w' = Some t /\ te_time (edit_time w') = t /\ tm_active (timer w') = false /\
    timer_lbl w' = (percent_0d 2 (QTime_minute t) ++ ":" ++ percent_0d 2 (QTime_second t))%string.
Proof.
  intros I Hd. pose proof Hd as Hd'. apply andb_prop in Hd' as [_ Hacc].
  apply QTimeEdit_accepts_spec in Hacc as [Hen Hv].
  unfold step_fn. rewrite Hd. cbn [handle]. rewrite run_bind, run_update. cbn beta iota.
  pose proof (run_editTimeFunc t (set_edit_time (QTimeEdit_setTime t (edit_time w)) w)) as P.
  destruct (run (editTimeFunc t) _) as [r w'].
  destruct P as (-> & P1 & P2 & P3 & P4 & P5 & P6 & _). eexists. split; [reflexivity|].
  destruct (QTime_minute_second_range t Hv) as [_ Hs].
  rewrite P1, P2, P3, P4, P5, P6. win_red. unfold time_in_seconds.
  rewrite (mmss_minsec _ _ Hs). repeat split.
  rewrite (inv_enabled w I) in Hen. destruct (tm_active (timer w)); [discriminate | reflexivity].
Qed.

Lemma edit_sets_duration_witness :
  inv window_init /\ deliverable window_init (TimeChanged t_0005) = true /\
  exists w', step_fn (TimeChanged t_0005) window_init = Some (Running w') /\
    counter w' = Some (QTime_minute t_0005 * 60 + QTime_second t_0005) /\ old_count w' = counter w' /\
    time w' = Some t_0005 /\ te_time (edit_time w') = t_0005 /\ tm_active (timer w') = false /\
    timer_lbl w' = (percent_0d 2 (QTime_minute t_0005) ++ ":" ++ percent_0d 2 (QTime_second t_0005))%string.
Proof.
  assert (I : inv window_init) by exact (reachable_inv _ reach_init).
  assert (D : deliverable window_init (TimeChanged t_0005) = true) by (vm_compute; reflexivity).
  split; [exact I|]. split; [exact D|]. exact (edit_sets_duration window_init t_0005 I D).
Defined.
