(* ===== verification/Controller.v ===== *)
(** The Countdown Controller of the spec (section 4) as an abstract
    specification, and the refinement theorems: every event the toolkit
    delivers to [Window] changes the abstraction of its state exactly as
    the corresponding abstract operation does, plays the alert exactly
    when the operation emits [Alert], and shows the window (hiding the
    tray icon) whenever it emits [Raise]; by induction on executions,
    every sequence of delivered events is a run of the controller.  The interface the spec's
    section 9 asks for ([onDurationChanged], [onTogglePressed],
    [onTick]) is the class [CountdownController]. *)

From Stdlib Require Import String ZArith Bool List Lia.
From S2P Require Import Prelude PyMonad PyFormat Qt Window EventLoop Invariant.
Import ListNotations.

Open Scope string_scope.
Open Scope Z_scope.

Inductive RunState := Stopped | Counting.

(** Duration and remaining time are unset until the first edit. *)
Record Ctrl := mkCtrl {
  duration : option Z;
  remaining : option Z;
  run_state : RunState }.

(** The two side effects of the spec: the alert sound and bringing the
    window to the foreground (hiding the tray icon). *)
Inductive Output := Alert | Raise.

Class CountdownController (S : Type) := {
  onDurationChanged : Z -> Z -> S -> S * list Output;
  onTogglePressed : bool -> S -> S * list Output;
  onTick : S -> S * list Output }.

(** [set_duration(minutes, seconds)]. *)
Definition spec_set_duration (m s : Z) (c : Ctrl) : Ctrl * list Output :=
  (mkCtrl (Some (m * 60 + s)) (Some (m * 60 + s)) (run_state c), []).

(** [toggle_start_stop(requested)]: a stop leaves [remaining] as it is. *)
Definition spec_toggle (requested : bool) (c : Ctrl) : Ctrl * list Output :=
  (mkCtrl (duration c) (remaining c) (if requested then Counting else Stopped), []).

(** [on_tick()], with steps 3 and 4 collapsed as the spec allows: at or
    below zero the countdown completes, raising the window only when the
    previous value was exactly 1; with no duration it stops with the
    alert. *)
Definition spec_on_tick (c : Ctrl) : Ctrl * list Output :=
  match duration c, remaining c with
  | Some d, Some r =>
      if 0 <? r - 1 then (mkCtrl (Some d) (Some (r - 1)) (run_state c), [])
      else (mkCtrl (Some d) (Some d) Stopped, if r =? 1 then [Raise; Alert] else [Alert])
  | _, _ => (mkCtrl (duration c) (remaining c) Stopped, [Alert])
  end.

#[export] Instance Spec_controller : CountdownController Ctrl := {
  onDurationChanged := spec_set_duration;
  onTogglePressed := spec_toggle;
  onTick := spec_on_tick }.

(** The abstraction of a window: the configured duration is
    [old_count], the remaining time [counter], and the controller runs
    while the [QTimer] does. *)
Definition abs (w : Window) : Ctrl :=
  mkCtrl (old_count w) (counter w) (if tm_active (timer w) then Counting else Stopped).

(** The controller operation each toolkit event stands for; closing the
    window and the tray's "Show" are presentation only. *)
Definition abs_event {S} `{CountdownController S} (e : Event) (w : Window)
  : option (S -> S * list Output) :=
  match e with
  | TimeChanged t => Some (onDurationChanged (QTime_minute t) (QTime_second t))
  | Clicked => Some (onTogglePressed (negb (tm_active (timer w))))
  | Timeout => Some onTick
  | CloseRequested | ShowTriggered => Some (fun c => (c, []))
  | ExitTriggered => None
  end.

(** The sound files an output list plays. *)
Definition sounds (outs : list Output) : list string :=
  flat_map (fun o => match o with Alert => ["sources/ding.wav"] | Raise => [] end) outs.

(** [w'] is a correct implementation of the abstract operation [f] taken
    from [w]. *)
Definition refines (w w' : Window) (f : Ctrl -> Ctrl * list Output) : Prop :=
  let '(c', outs) := f (abs w) in
  abs w' = c' /\ audio_log w' = (audio_log w ++ sounds outs)%list /\
  (In Raise outs -> visible w' = true /\ tray_visible (tray w') = false).

(** The abstract controller driven by the events themselves: a click
    requests the opposite of the current run state; closing and "Show"
    do nothing; "Exit" ends the run. *)
Definition spec_event (e : Event) (c : Ctrl) : option (Ctrl * list Output) :=
  match e with
  | TimeChanged t => Some (onDurationChanged (QTime_minute t) (QTime_second t) c)
  | Clicked => Some (onTogglePressed (match run_state c with Stopped => true | Counting => false end) c)
  | Timeout => Some (onTick c)
  | CloseRequested | ShowTriggered => Some (c, [])
  | ExitTriggered => None
  end.

(** The abstract run over a sequence of events, with all its outputs. *)
Fixpoint spec_run (es : list Event) (c : Ctrl) : option (Ctrl * list Output) :=
  match es with
  | [] => Some (c, [])
  | e :: es' =>
      match spec_event e c with
      | Some (c1, o1) =>
          match spec_run es' c1 with
          | Some (c2, o2) => Some (c2, (o1 ++ o2)%list)
          | None => None
          end
      | None => None
      end
  end.

(** A concrete execution: the events delivered one after the other. *)
Inductive steps : Proc -> list Event -> Proc -> Prop :=
| steps_nil p : steps p [] p
| steps_cons p e p1 es p2 : step p e p1 -> steps p1 es p2 -> steps p (e :: es) p2.

Lemma step_fn_Running (e : Event) (w w' : Window) :
  step_fn e w = Some (Running w') -> deliverable w e = true /\ snd (run (handle e) w) = w'.
Proof.
  unfold step_fn. destruct (deliverable w e); [|discriminate].
  destruct (run (handle e) w) as [[[a|]|[]] w1]; intros H; inversion H; auto.
Qed.

(** Closes the three conjuncts of [refines] once both sides are computed. *)
Ltac refine_close :=
  cbn [sounds flat_map app]; rewrite ?app_nil_r;
  split; [reflexivity | split; [reflexivity |
    first [intros [?|[]]; discriminate | intros [] | intros _; split; reflexivity]]].

(** A tick implements [on_tick]. *)
Lemma refine_tick (w : Window) :
  inv w -> tm_active (timer w) = true -> refines w (snd (run timerFunc w)) spec_on_tick.
Proof.
  intros I Ha. unfold refines, spec_on_tick, abs. rewrite Ha.
  destruct (counter w) as [c|] eqn:Hc.
  - destruct (inv_counter_set w c I Hc) as (_ & Ho & _). rewrite Ho. cbn [duration remaining run_state].
    destruct (Z.ltb_spec 0 (c - 1)).
    + pose proof (run_timerFunc_running w c Hc ltac:(lia)) as P.
      destruct (run timerFunc w) as [r w']. destruct P as (_ & P1 & _ & P3 & _ & _ & P6 & _ & _ & P9 & _).
      cbn [snd]. rewrite P1, P3, P6, P9, Ha, Ho. cbn. rewrite app_nil_r. refine_close.
    + destruct (Z.eqb_spec c 1) as [->|Hne].
      * pose proof (run_timerFunc_complete w _ Hc Ho) as P.
        destruct (run timerFunc w) as [r w']. destruct P as (_ & P1 & _ & P3 & _ & _ & P6 & P7 & P8 & P9 & _).
        cbn [snd]. rewrite P1, P3, P6, P7, P8, P9. repeat split.
      * pose proof (run_timerFunc_overrun w c _ Hc ltac:(lia) Ho) as P.
        destruct (run timerFunc w) as [r w']. destruct P as (_ & P1 & _ & P3 & _ & _ & P6 & _ & _ & P9 & _).
        cbn [snd]. rewrite P1, P3, P6, P9. refine_close.
  - destruct (inv_counter_unset w I Hc) as (_ & Ho). rewrite Ho.
    pose proof (run_timerFunc_unset w Hc) as P.
    destruct (run timerFunc w) as [r w']. destruct P as (_ & P1 & P2 & _ & _ & P5 & _ & _ & _ & _ & P10).
    cbn [snd]. rewrite P1, P2, P5, P10, Ho. refine_close.
Qed.

(** An edit implements [set_duration] with the minutes and seconds of
    the new time. *)
Lemma refine_edit (w : Window) (t : QTime) :
  refines w (snd (run (handle (TimeChanged t)) w)) (spec_set_duration (QTime_minute t) (QTime_second t)).
Proof.
  unfold refines, spec_set_duration, abs. cbn [handle]. rewrite run_bind, run_update. cbn beta iota.
  pose proof (run_editTimeFunc t (set_edit_time (QTimeEdit_setTime t (edit_time w)) w)) as P.
  destruct (run (editTimeFunc t) _) as [r w'].
  destruct P as (_ & _ & P2 & P3 & _ & P5 & _ & _ & _ & _ & P10). cbn [snd].
  rewrite P2, P3, P5, P10. win_red. refine_close.
Qed.

(** A click implements [toggle_start_stop] with the button's new state. *)
Lemma refine_click (w : Window) :
  inv w ->
  refines w (snd (run (handle Clicked) w)) (spec_toggle (negb (tm_active (timer w)))).
Proof.
  intros I. unfold refines, spec_toggle, abs. rewrite (click_spec w I).
  destruct (tm_active (timer w)); cbn [negb];
    [rewrite run_startStop_false | rewrite run_startStop_true]; cbn [snd]; win_red; refine_close.
Qed.

(** Closing the window and the tray's "Show" leave the controller as it
    is. *)
Lemma refine_ui (w : Window) (e : Event) :
  e = CloseRequested \/ e = ShowTriggered ->
  refines w (snd (run (handle e) w)) (fun c => (c, [])).
Proof.
  intros [-> | ->]; unfold refines, abs; cbn [handle].
  - rewrite run_bind, run_closeEvent. cbn beta iota. rewrite run_ret. cbn [snd]. win_red.
    refine_close.
  - rewrite run_show_action. cbn [snd]. win_red. refine_close.
Qed.

(** One delivered event, other than the tray's "Exit" which ends the
    process, implements the controller operation it stands for: the
    abstraction of the new state is the operation's result, the alert is
    played once per [Alert] it emits, and a [Raise] shows the window and
    hides the tray icon. *)
Lemma refines_step (w w' : Window) (e : Event) :
  inv w -> step_fn e w = Some (Running w') ->
  exists f, abs_event e w = Some f /\ refines w w' f.
Proof.
  intros I S. destruct (event_eq_dec e ExitTriggered) as [->|Hne].
  { unfold step_fn in S. cbn [handle] in S. rewrite run_quit_action in S.
    destruct (deliverable w ExitTriggered); discriminate. }
  apply step_fn_Running in S as [Hd <-].
  destruct e as [t| | | | |]; [| | | | | congruence];
    cbn [abs_event]; eexists; (split; [reflexivity|]).
  - apply refine_edit.
  - apply refine_click, I.
  - apply refine_tick; [exact I | exact Hd].
  - apply refine_ui; auto.
  - apply refine_ui; auto.
Qed.

Lemma spec_event_abs (e : Event) (w : Window) (f : Ctrl -> Ctrl * list Output) :
  abs_event e w = Some f -> spec_event e (abs w) = Some (f (abs w)).
Proof.
  destruct e; cbn; intros H; inversion H; subst; try reflexivity.
  unfold abs. destruct (tm_active (timer w)); reflexivity.
Qed.

Lemma sounds_app (o1 o2 : list Output) : sounds (o1 ++ o2) = (sounds o1 ++ sounds o2)%list.
Proof. apply flat_map_app. Qed.

(** A process that has exited takes no more steps. *)
Lemma steps_Exited (es : list Event) (p : Proc) : steps Exited es p -> p = Exited.
Proof. intros S. inversion S as [|? ? ? ? ? St]; [reflexivity | inversion St]. Qed.

(** C1: refinement of the spec's controller by every execution.  From a
    state of the invariant, any sequence of delivered events after which
    the process still runs is a run of the abstract controller on the
    same events: the abstraction of the final state is the controller's
    final state, and the sounds played are exactly one per [Alert] the
    controller emits, in order. *)
Theorem controller_refinement (w w' : Window) (es : list Event) :
  inv w -> steps (Running w) es (Running w') ->
  exists outs, spec_run es (abs w) = Some (abs w', outs) /\
               audio_log w' = (audio_log w ++ sounds outs)%list.
Proof.
  intros I S. remember (Running w) as p eqn:Ep. remember (Running w') as q eqn:Eq.
  revert w I Ep. induction S as [p|p e p1 es p2 St S IH]; intros w I Ep.
  - rewrite Ep in Eq. injection Eq as <-. exists []. rewrite app_nil_r. split; reflexivity.
  - rewrite Ep in St. inversion St as [w0 e0 p0 E]; subst p0 e0 w0.
    destruct p1 as [w1|]; [|apply steps_Exited in S; rewrite S in Eq; discriminate].
    destruct (refines_step w w1 e I E) as (f & Hf & R).
    destruct (IH Eq w1 (step_fn_inv e w w1 I E) eq_refl) as (o2 & Hr & Ha).
    unfold refines in R. destruct (f (abs w)) as [c1 o1] eqn:Ef. destruct R as (Hc & Hl & _).
    exists (o1 ++ o2)%list. cbn [spec_run]. rewrite (spec_event_abs e w f Hf), Ef, <- Hc, Hr.
    split; [reflexivity|]. rewrite Ha, Hl, sounds_app, app_assoc. reflexivity.
Qed.

Lemma controller_refinement_witness :
  inv w_set5 /\
  steps (Running w_set5) [Clicked; Timeout]
        (Running (snd (run (handle Timeout) (snd (run (handle Clicked) w_set5))))) /\
  exists outs, spec_run [Clicked; Timeout] (abs w_set5) =
                 Some (abs (snd (run (handle Timeout) (snd (run (handle Clicked) w_set5)))), outs) /\
               audio_log (snd (run (handle Timeout) (snd (run (handle Clicked) w_set5)))) =
                 (audio_log w_set5 ++ sounds outs)%list.
Proof.
  assert (I : inv w_set5) by exact (reachable_inv _ reachable_w_set5).
  assert (S : steps (Running w_set5) [Clicked; Timeout]
                (Running (snd (run (handle Timeout) (snd (run (handle Clicked) w_set5)))))).
  { econstructor; [constructor; vm_compute; reflexivity|].
    econstructor; [constructor; vm_compute; reflexivity|]. constructor. }
  split; [exact I|]. split; [exact S|]. exact (controller_refinement _ _ _ I S).
Defined.
