(* ===== verification/Audio.v ===== *)
(** The life of the alert player of [src/timer.py].  [self.ding] is the
    only reference to its [QMediaPlayer] (created without a Qt parent), so
    the player lives until [self.ding] is rebound, which only [sound()]
    does, at the start of every tick (line 90).  The alert played at
    completion therefore sounds while the timer is stopped, whatever the
    user does, and is cut by the first tick after a restart. *)

From Stdlib Require Import String ZArith Bool List Lia.
From S2P Require Import Prelude PyMonad PyFormat Qt Window EventLoop Invariant Countdown.
Import ListNotations.

Open Scope string_scope.
Open Scope Z_scope.

(** A player is playing the alert. *)
Definition alert_playing (w : Window) : bool :=
  match ding w with Some p => mp_playing p | None => false end.

(** A tick that keeps counting replaces the player by a new one, which
    does not play. *)
Lemma run_timerFunc_running_silent (w : Window) (c : Z) :
  counter w = Some c -> 1 < c -> alert_playing (snd (run timerFunc w)) = false.
Proof.
  intros Hc Hlt. unfold alert_playing, timerFunc, sound; unfold_calls. py_exec.
  destruct (Z.eqb_spec (c - 1) 0); [lia|]. py_exec.
  destruct (Z.ltb_spec (c - 1) 0); [lia|]. py_exec. reflexivity.
Qed.

(** C23: a restart cuts the alert.  After a countdown has completed (the
    timer stopped, the alert still playing), starting a new countdown of
    at least two seconds keeps the alert playing until the first tick,
    whose [sound()] rebinds [self.ding]: the playing player is deleted
    and the new one is silent, and nothing new is played. *)
Theorem restart_cuts_alert (w : Window) (c : Z) :
  inv w -> visible w = true -> tm_active (timer w) = false -> alert_playing w = true ->
  counter w = Some c -> 2 <= c ->
  exists w1, step_fn Clicked w = Some (Running w1) /\ alert_playing w1 = true /\
    alert_playing (tick w1) = false /\ audio_log (tick w1) = audio_log w.
Proof.
  intros I Hv Ha Hp Hc H2.
  assert (S : exists w1, step_fn Clicked w = Some (Running w1) /\ tm_active (timer w1) = true /\
                         counter w1 = Some c /\ ding w1 = ding w).
  { rewrite (step_fn_click w I Hv), Ha. cbn [negb]. rewrite run_startStop_true.
    eexists. split; [reflexivity|]. split; [reflexivity|]. split; [exact Hc | reflexivity]. }
  destruct S as (w1 & S & A1 & C1 & D1). exists w1. split; [exact S|].
  split; [unfold alert_playing; rewrite D1; exact Hp|].
  rewrite (tick_active w1 (step_fn_inv _ _ _ I S) A1). split.
  - exact (run_timerFunc_running_silent w1 c C1 ltac:(lia)).
  - pose proof (run_timerFunc_running w1 c C1 ltac:(lia)) as P.
    destruct (run timerFunc w1) as [r w2]. destruct P as (_ & _ & _ & _ & _ & _ & P & _). cbn [snd].
    rewrite P. pose proof (step_fn_click w I Hv) as E. rewrite S, Ha in E. cbn [negb] in E.
    rewrite run_startStop_true in E. injection E as ->. reflexivity.
Qed.

Lemma restart_cuts_alert_witness :
  inv (ticks 5 w_run5) /\ visible (ticks 5 w_run5) = true /\ tm_active (timer (ticks 5 w_run5)) = false /\
  alert_playing (ticks 5 w_run5) = true /\ counter (ticks 5 w_run5) = Some 5 /\ 2 <= 5 /\
  exists w1, step_fn Clicked (ticks 5 w_run5) = Some (Running w1) /\ alert_playing w1 = true /\
    alert_playing (tick w1) = false /\ audio_log (tick w1) = audio_log (ticks 5 w_run5).
Proof.
  assert (R : reachable (Running (ticks 5 w_run5))).
  { apply (reachable_from_init [TimeChanged t_0005; Clicked; Timeout; Timeout; Timeout; Timeout; Timeout]).
    vm_compute. reflexivity. }
  assert (I : inv (ticks 5 w_run5)) by exact (reachable_inv _ R).
  assert (Hv : visible (ticks 5 w_run5) = true) by (vm_compute; reflexivity).
  assert (Ha : tm_active (timer (ticks 5 w_run5)) = false) by (vm_compute; reflexivity).
  assert (Hp : alert_playing (ticks 5 w_run5) = true) by (vm_compute; reflexivity).
  assert (Hc : counter (ticks 5 w_run5) = Some 5) by (vm_compute; reflexivity).
  assert (H2 : 2 <= 5) by lia.
  repeat (split; [assumption|]). exact (restart_cuts_alert _ 5 I Hv Ha Hp Hc H2).
Defined.
